(** * Movie Discovery Platform: a shallow embedding of [app.js]

    The browser client keeps one global [state] object, talks to the TMDB
    API through [fetchFromTMDB], debounces the search box and pages through
    results.  The embedding below follows [app.js] function by function:
    JavaScript strings are Rocq strings (code units 0..255), page numbers are
    integers, vote averages are the exact rational value of the JavaScript
    number, and the one global [state] object together with the parts of the
    browser the code touches (the DOM nodes it writes, [window.TMDB_TOKEN],
    timers, outstanding [fetch] calls) is threaded explicitly. *)

From Stdlib Require Import ZArith QArith Qabs Qround String Ascii List Bool Lia.
From Stdlib Require DecimalString.
Import ListNotations.

Local Open Scope Z_scope.
Local Open Scope string_scope.

(** ** JavaScript values used by the code *)

Module Js.

(** Truthiness of a string: only the empty string is falsy. *)
Definition truthy (s : string) : bool :=
  match s with
  | EmptyString => false
  | String _ _ => true
  end.

(** Truthiness of a possibly undefined string (e.g. [window.TMDB_TOKEN]). *)
Definition truthy_opt (o : option string) : bool :=
  match o with
  | None => false
  | Some s => truthy s
  end.

(** White space and line terminators among the code units 0..255, the
    characters removed by [String.prototype.trim]: TAB, LF, VT, FF, CR,
    SPACE and NBSP. *)
Definition is_space (c : ascii) : bool :=
  let n := nat_of_ascii c in
  ((9 <=? n) && (n <=? 13))%nat || (n =? 32)%nat || (n =? 160)%nat.

Fixpoint trimStart (s : string) : string :=
  match s with
  | EmptyString => EmptyString
  | String c r => if is_space c then trimStart r else s
  end.

Fixpoint trimEnd (s : string) : string :=
  match s with
  | EmptyString => EmptyString
  | String c r =>
      match trimEnd r with
      | EmptyString => if is_space c then EmptyString else String c EmptyString
      | r' => String c r'
      end
  end.

(** [s.trim()] *)
Definition trim (s : string) : string := trimEnd (trimStart s).

(** Decimal digits of a non-negative integer. *)
Definition digits (n : Z) : string :=
  DecimalString.NilZero.string_of_uint (N.to_uint (Z.to_N n)).

(** Template-literal rendering of an integer. *)
Definition int_to_string (n : Z) : string :=
  if (n <? 0)%Z then "-" ++ digits (- n) else digits n.

(** [x.toFixed(1)] on the exact value [x] of a number: the integer [n]
    with [n / 10] closest to [|x|], the larger one on a tie, printed with
    one digit after the point, and a minus sign when [x < 0].  (Numbers
    of magnitude 1e21 and above, which [toFixed] prints in exponent
    notation, lie outside the embedded range.) *)
Definition toFixed1 (x : Q) : string :=
  let a := Qabs x in
  let n := Qfloor (a * (10 # 1) + (1 # 2)) in
  (if Qle_bool 0 x then "" else "-")
    ++ digits (n / 10) ++ "." ++ digits (n mod 10).

End Js.

(** ** Configuration constants *)

Definition TMDB_BASE_URL : string := "https://api.themoviedb.org/3".
Definition TMDB_IMAGE_BASE : string := "https://image.tmdb.org/t/p".

(** The double-quote character, which occurs inside [FALLBACK_POSTER]. *)
Definition dq : string := String (ascii_of_nat 34) "".

(** The inline SVG data URL shown when a movie has no poster. *)
Definition FALLBACK_POSTER : string :=
  "data:image/svg+xml,%3Csvg xmlns=" ++ dq ++ "http://www.w3.org/2000/svg" ++ dq
  ++ " width=" ++ dq ++ "300" ++ dq ++ " height=" ++ dq ++ "450" ++ dq
  ++ " viewBox=" ++ dq ++ "0 0 300 450" ++ dq
  ++ "%3E%3Crect fill=" ++ dq ++ "%23374151" ++ dq
  ++ " width=" ++ dq ++ "300" ++ dq ++ " height=" ++ dq ++ "450" ++ dq
  ++ "/%3E%3Ctext x=" ++ dq ++ "50%25" ++ dq ++ " y=" ++ dq ++ "50%25" ++ dq
  ++ " text-anchor=" ++ dq ++ "middle" ++ dq ++ " fill=" ++ dq ++ "%239CA3AF" ++ dq
  ++ " font-size=" ++ dq ++ "18" ++ dq ++ " font-family=" ++ dq ++ "sans-serif" ++ dq
  ++ "%3ENo Poster%3C/text%3E%3C/svg%3E".

(** ** Utility functions *)

(** [getPosterUrl(posterPath)]; [None] stands for a missing or null path. *)
Definition getPosterUrl (posterPath : option string) : string :=
  if Js.truthy_opt posterPath
  then TMDB_IMAGE_BASE ++ "/w500" ++ match posterPath with Some p => p | None => "" end
  else FALLBACK_POSTER.

(** A vote average as the renderer receives it: [None] is an absent
    ([undefined] or [null]) field, [Some q] a number of exact value [q]. *)
Definition Rating := option Q.

(** Truthiness of a rating: absent values and zero are falsy. *)
Definition rating_truthy (r : Rating) : bool :=
  match r with
  | None => false
  | Some q => negb (Qeq_bool q 0)
  end.

(** [formatRating(voteAverage)] *)
Definition formatRating (voteAverage : Rating) : string :=
  match voteAverage with
  | Some q => if rating_truthy voteAverage then Js.toFixed1 q else "N/A"
  | None => "N/A"
  end.

(** [rating >= bound]; a comparison with an absent value is false. *)
Definition rating_ge (r : Rating) (bound : Q) : bool :=
  match r with
  | None => false
  | Some q => Qle_bool bound q
  end.

(** [getRatingColor(rating)] *)
Definition getRatingColor (rating : Rating) : string :=
  if rating_ge rating (15 # 2) then "text-green-400"
  else if rating_ge rating (6 # 1) then "text-yellow-400"
  else "text-red-400".

(** ** Data model *)

(** An entry of the genre list returned by [/genre/movie/list]. *)
Record Genre := mkGenre { genre_id : Z; genre_name : string }.

(** The fields of a movie object that [renderMovies] reads; [None] is an
    absent (or null) field. *)
Record Movie := mkMovie {
  title : string;
  release_date : option string;
  poster_path : option string;
  overview : option string;
  vote_average : Rating
}.

(** A parsed response body: the fields the code reads from [data]. *)
Record Json := mkJson {
  results : option (list Movie);
  total_pages : option Z;
  data_genres : option (list Genre)
}.

(** The global [state] object.  [genres] is [None] after
    [state.genres = data.genres] stored an undefined field. *)
Record State := mkState {
  currentCategory : string;
  currentPage : Z;
  totalPages : Z;
  searchQuery : string;
  selectedGenre : string;
  genres : option (list Genre);
  isLoading : bool
}.

(** The object literal [state] is initialised with. *)
Definition initial_state : State :=
  {| currentCategory := "trending";
     currentPage := 1;
     totalPages := 1;
     searchQuery := "";
     selectedGenre := "";
     genres := Some [];
     isLoading := false |}.

(** *** The DOM nodes the code writes *)

(** One rendered movie card: the values [renderMovies] interpolates into the
    card template (the strings as interpolated; how the browser parses the
    resulting markup is not part of the model).  [card_date] is the release date handed to [new Date]
    for the year, [None] when the card shows 'TBA'. *)
Record Card := mkCard {
  card_poster : string;
  card_onerror : string;
  card_title : string;
  card_rating : string;
  card_ratingColor : string;
  card_date : option string;
  card_overview : string
}.

(** Content of [#moviesGrid]. *)
Inductive Grid :=
| GridCleared                       (* innerHTML = '' *)
| GridSkeletons (count : nat)       (* [count] skeleton cards *)
| GridNoMovies                      (* the "No movies found" message *)
| GridCards (cards : list Card).

(** Content of [#statusBar] as written by [showStatus]. *)
Record Status := mkStatus { status_message : string; status_bgColor : string }.

Record Dom := mkDom {
  statusBar : option Status;
  statusBar_hidden : bool;
  moviesGrid : Grid;
  pageInfo : string;
  prevBtn_disabled : bool;
  nextBtn_disabled : bool;
  searchInput : string;
  genreSelect : list (string * string)     (* option value, option label *)
}.

(** *** Requests, responses and timers *)

(** A value of the [params] object. *)
Inductive PVal := PNum (n : Z) | PStr (s : string).

(** A call of [fetch]: the endpoint appended to [TMDB_BASE_URL], the
    parameters given to [URLSearchParams] in insertion order, and the
    Authorization header.  (The percent-encoding of the query string is not
    embedded.) *)
Record Request := mkRequest {
  endpoint : string;
  params : list (string * PVal);
  authorization : string
}.

(** What [response.json()] yields. *)
Inductive Body :=
| Parsed (data : Json)
| Malformed (message : string).

(** How an outstanding [fetch] settles: the promise rejects (network
    failure), or a response arrives. *)
Inductive Outcome :=
| NetworkFailure (message : string)
| Response (status : Z) (statusText : string) (body : Body).

(** The async function suspended on an outstanding [fetch]. *)
Inductive Cont :=
| AwaitGenres      (* [loadGenres], called from [init] *)
| AwaitMovies.     (* [loadMovies] *)

(** A pending [setTimeout] of the debounced search handler: the callback is
    always [() => func.apply(this, args)], so the timer keeps [args]. *)
Record Timer := mkTimer { timer_id : nat; timer_due : Z; timer_args : string }.

(** The page: the [state] object and the browser around it. *)
Record Browser := mkBrowser {
  state : State;
  TMDB_TOKEN : option string;              (* window.TMDB_TOKEN *)
  dom : Dom;
  console : list string;                   (* console.error messages *)
  listeners : bool;                        (* initializeEventListeners ran *)
  clock : Z;                               (* milliseconds *)
  next_timer : nat;
  timers : list Timer;                     (* pending timeouts *)
  expired : list (Z * string);             (* timeouts that ran: time, args *)
  timeoutId : option nat;                  (* [timeoutId] of handleSearch's closure *)
  network : list Request;                  (* every [fetch] issued, oldest first *)
  inflight : list (Request * Cont)         (* fetches not yet settled *)
}.

Definition upd_state (f : State -> State) (b : Browser) : Browser :=
  mkBrowser (f (state b)) (TMDB_TOKEN b) (dom b) (console b) (listeners b)
            (clock b) (next_timer b) (timers b) (expired b) (timeoutId b)
            (network b) (inflight b).

Definition upd_dom (f : Dom -> Dom) (b : Browser) : Browser :=
  mkBrowser (state b) (TMDB_TOKEN b) (f (dom b)) (console b) (listeners b)
            (clock b) (next_timer b) (timers b) (expired b) (timeoutId b)
            (network b) (inflight b).

Definition console_error (msg : string) (b : Browser) : Browser :=
  mkBrowser (state b) (TMDB_TOKEN b) (dom b) (console b ++ [msg]) (listeners b)
            (clock b) (next_timer b) (timers b) (expired b) (timeoutId b)
            (network b) (inflight b).

Definition set_listeners (v : bool) (b : Browser) : Browser :=
  mkBrowser (state b) (TMDB_TOKEN b) (dom b) (console b) v
            (clock b) (next_timer b) (timers b) (expired b) (timeoutId b)
            (network b) (inflight b).

Definition set_inflight (l : list (Request * Cont)) (b : Browser) : Browser :=
  mkBrowser (state b) (TMDB_TOKEN b) (dom b) (console b) (listeners b)
            (clock b) (next_timer b) (timers b) (expired b) (timeoutId b)
            (network b) l.

(** [fetch(url, ...)]: the request leaves the page and stays outstanding
    until it settles; [k] is the function awaiting it. *)
Definition fetch (r : Request) (k : Cont) (b : Browser) : Browser :=
  mkBrowser (state b) (TMDB_TOKEN b) (dom b) (console b) (listeners b)
            (clock b) (next_timer b) (timers b) (expired b) (timeoutId b)
            (network b ++ [r]) (inflight b ++ [(r, k)]).

(** State field assignments. *)
Definition set_currentCategory (v : string) (s : State) : State :=
  mkState v (currentPage s) (totalPages s) (searchQuery s) (selectedGenre s)
          (genres s) (isLoading s).
Definition set_currentPage (v : Z) (s : State) : State :=
  mkState (currentCategory s) v (totalPages s) (searchQuery s) (selectedGenre s)
          (genres s) (isLoading s).
Definition set_totalPages (v : Z) (s : State) : State :=
  mkState (currentCategory s) (currentPage s) v (searchQuery s) (selectedGenre s)
          (genres s) (isLoading s).
Definition set_searchQuery (v : string) (s : State) : State :=
  mkState (currentCategory s) (currentPage s) (totalPages s) v (selectedGenre s)
          (genres s) (isLoading s).
Definition set_selectedGenre (v : string) (s : State) : State :=
  mkState (currentCategory s) (currentPage s) (totalPages s) (searchQuery s) v
          (genres s) (isLoading s).
Definition set_genres (v : option (list Genre)) (s : State) : State :=
  mkState (currentCategory s) (currentPage s) (totalPages s) (searchQuery s)
          (selectedGenre s) v (isLoading s).
Definition set_isLoading (v : bool) (s : State) : State :=
  mkState (currentCategory s) (currentPage s) (totalPages s) (searchQuery s)
          (selectedGenre s) (genres s) v.

(** ** UI functions *)

(** [showStatus(message, type)] *)
Definition showStatus (message type : string) (b : Browser) : Browser :=
  let bgColor :=
    if String.eqb type "error"
    then "bg-red-900/50 border-red-700"
    else "bg-blue-900/50 border-blue-700" in
  upd_dom (fun d =>
    mkDom (Some (mkStatus message bgColor)) false (moviesGrid d) (pageInfo d)
          (prevBtn_disabled d) (nextBtn_disabled d) (searchInput d)
          (genreSelect d)) b.

(** [hideStatus()] *)
Definition hideStatus (b : Browser) : Browser :=
  upd_dom (fun d =>
    mkDom (statusBar d) true (moviesGrid d) (pageInfo d)
          (prevBtn_disabled d) (nextBtn_disabled d) (searchInput d)
          (genreSelect d)) b.

Definition set_moviesGrid (g : Grid) (b : Browser) : Browser :=
  upd_dom (fun d =>
    mkDom (statusBar d) (statusBar_hidden d) g (pageInfo d)
          (prevBtn_disabled d) (nextBtn_disabled d) (searchInput d)
          (genreSelect d)) b.

Definition set_searchInput (v : string) (b : Browser) : Browser :=
  upd_dom (fun d =>
    mkDom (statusBar d) (statusBar_hidden d) (moviesGrid d) (pageInfo d)
          (prevBtn_disabled d) (nextBtn_disabled d) v (genreSelect d)) b.

Definition set_genreSelect (v : list (string * string)) (b : Browser) : Browser :=
  upd_dom (fun d =>
    mkDom (statusBar d) (statusBar_hidden d) (moviesGrid d) (pageInfo d)
          (prevBtn_disabled d) (nextBtn_disabled d) (searchInput d) v) b.

(** [renderSkeletons(count = 12)] *)
Definition renderSkeletons (count : nat) (b : Browser) : Browser :=
  set_moviesGrid (GridSkeletons count) b.

(** The card [renderMovies] builds for one movie. *)
Definition renderCard (movie : Movie) : Card :=
  let rating := formatRating (vote_average movie) in
  let ratingColor := getRatingColor (vote_average movie) in
  {| card_poster := getPosterUrl (poster_path movie);
     card_onerror := FALLBACK_POSTER;
     card_title := title movie;
     card_rating := rating;
     card_ratingColor := ratingColor;
     card_date := if Js.truthy_opt (release_date movie)
                  then release_date movie else None;
     card_overview := if Js.truthy_opt (overview movie)
                      then match overview movie with Some o => o | None => "" end
                      else "No overview available." |}.

(** [renderMovies(movies)]; [None] is an undefined [data.results]. *)
Definition renderMovies (movies : option (list Movie)) (b : Browser) : Browser :=
  match movies with
  | None | Some [] => set_moviesGrid GridNoMovies b
  | Some ms => set_moviesGrid (GridCards (map renderCard ms)) b
  end.

(** [updatePaginationUI()] *)
Definition updatePaginationUI (b : Browser) : Browser :=
  let s := state b in
  upd_dom (fun d =>
    mkDom (statusBar d) (statusBar_hidden d) (moviesGrid d)
          ("Page " ++ Js.int_to_string (currentPage s) ++ " of "
                   ++ Js.int_to_string (totalPages s))
          ((currentPage s =? 1)%Z || isLoading s)
          ((currentPage s >=? totalPages s)%Z || isLoading s)
          (searchInput d) (genreSelect d)) b.

(** ** The HTTP helper *)

(** The synchronous part of [fetchFromTMDB(endpoint, params)], called by the
    async function [k]: without a token the returned promise is rejected
    with the message in [Some], before any [fetch]; otherwise the request is
    issued and the caller suspends on it. *)
Definition fetchFromTMDB (endpoint : string) (params : list (string * PVal))
    (k : Cont) (b : Browser) : Browser * option string :=
  if negb (Js.truthy_opt (TMDB_TOKEN b)) then
    (b, Some "TMDB API token not found. Please set window.TMDB_TOKEN")
  else
    let token := match TMDB_TOKEN b with Some t => t | None => "" end in
    (fetch (mkRequest endpoint params ("Bearer " ++ token)) k b, None).

(** [response.ok] *)
Definition response_ok (status : Z) : bool :=
  ((200 <=? status) && (status <=? 299))%Z.

(** The rest of [fetchFromTMDB] once the [fetch] settles: the parsed body,
    or the message of the error thrown to the caller. *)
Definition fetchFromTMDB_result (o : Outcome) : string + Json :=
  match o with
  | NetworkFailure message => inl message
  | Response status statusText body =>
      if negb (response_ok status) then
        inl ("TMDB API Error: " ++ Js.int_to_string status ++ " " ++ statusText)
      else
        match body with
        | Parsed data => inr data
        | Malformed message => inl message
        end
  end.

(** ** Loading movies *)

(** The endpoint and [params] object [loadMovies] builds from [state]. *)
Definition loadMovies_request (s : State) : string * list (string * PVal) :=
  let params := [("page", PNum (currentPage s))] in
  let '(endpoint, params) :=
    if Js.truthy (searchQuery s) then
      ("/search/movie", (params ++ [("query", PStr (searchQuery s))])%list)
    else
      (if String.eqb (currentCategory s) "trending" then "/trending/movie/week"
       else if String.eqb (currentCategory s) "popular" then "/movie/popular"
       else if String.eqb (currentCategory s) "top_rated" then "/movie/top_rated"
       else "/trending/movie/week",
       params) in
  let params :=
    if Js.truthy (selectedGenre s)
    then (params ++ [("with_genres", PStr (selectedGenre s))])%list
    else params in
  (endpoint, params).

(** The [catch] block of [loadMovies]. *)
Definition loadMovies_catch (message : string) (b : Browser) : Browser :=
  let b := console_error "Failed to load movies:" b in
  let b := showStatus
             (if Js.truthy message then message
              else "Failed to load movies. Please check your API token and try again.")
             "error" b in
  set_moviesGrid GridCleared b.

(** The [finally] block of [loadMovies]. *)
Definition loadMovies_finally (b : Browser) : Browser :=
  updatePaginationUI (upd_state (set_isLoading false) b).

(** [data.total_pages || 1] clamped by [Math.min(_, 500)]. *)
Definition clamp_total_pages (tp : option Z) : Z :=
  Z.min (match tp with
         | None | Some 0 => 1
         | Some n => n
         end) 500.

(** [loadMovies] after [await fetchFromTMDB(...)]. *)
Definition loadMovies_resume (o : Outcome) (b : Browser) : Browser :=
  match fetchFromTMDB_result o with
  | inr data =>
      let b := upd_state (set_totalPages (clamp_total_pages (total_pages data))) b in
      let b := renderMovies (results data) b in
      let b := updatePaginationUI b in
      loadMovies_finally b
  | inl message => loadMovies_finally (loadMovies_catch message b)
  end.

(** [loadMovies()] up to its [await].  A promise rejected for want of a
    token is handled before any other event, so its [catch] and [finally]
    blocks are run here. *)
Definition loadMovies (b : Browser) : Browser :=
  if isLoading (state b) then b
  else
    let b := upd_state (set_isLoading true) b in
    let b := renderSkeletons 12 b in
    let b := hideStatus b in
    let b := updatePaginationUI b in
    let '(endpoint, params) := loadMovies_request (state b) in
    match fetchFromTMDB endpoint params AwaitMovies b with
    | (b, None) => b
    | (b, Some message) => loadMovies_finally (loadMovies_catch message b)
    end.

(** ** Loading genres *)

(** The [catch] block of [loadGenres]. *)
Definition loadGenres_catch (b : Browser) : Browser :=
  console_error "Failed to load genres:" b.

(** [loadGenres] after its [await], followed by the rest of [init]
    ([await loadMovies()]).  With [data.genres] undefined the [map] call
    throws and the [catch] block runs. *)
Definition loadGenres_resume (o : Outcome) (b : Browser) : Browser :=
  let b :=
    match fetchFromTMDB_result o with
    | inr data =>
        let b := upd_state (set_genres (data_genres data)) b in
        match data_genres data with
        | Some gs =>
            set_genreSelect
              (("", "All Genres")
                 :: map (fun g => (Js.int_to_string (genre_id g), genre_name g)) gs) b
        | None => loadGenres_catch b
        end
    | inl _ => loadGenres_catch b
    end in
  loadMovies b.

(** ** Handlers *)

(** The function wrapped by [debounce] in [handleSearch]. *)
Definition handleSearch_func (query : string) (b : Browser) : Browser :=
  let b := upd_state (set_searchQuery (Js.trim query)) b in
  let b := upd_state (set_currentPage 1) b in
  loadMovies b.

(** [handleCategoryChange(category)] *)
Definition handleCategoryChange (category : string) (b : Browser) : Browser :=
  let b := upd_state (set_currentCategory category) b in
  let b := upd_state (set_searchQuery "") b in
  let b := upd_state (set_currentPage 1) b in
  let b := set_searchInput "" b in
  loadMovies b.

(** [handleGenreChange(genreId)] *)
Definition handleGenreChange (genreId : string) (b : Browser) : Browser :=
  let b := upd_state (set_selectedGenre genreId) b in
  let b := upd_state (set_currentPage 1) b in
  loadMovies b.

(** [goToPage(direction)]; [window.scrollTo] leaves the model unchanged. *)
Definition goToPage (direction : string) (b : Browser) : Browser :=
  if String.eqb direction "next" && (currentPage (state b) <? totalPages (state b))%Z then
    let b := upd_state (fun s => set_currentPage (currentPage s + 1) s) b in
    loadMovies b
  else if String.eqb direction "prev" && (currentPage (state b) >? 1)%Z then
    let b := upd_state (fun s => set_currentPage (currentPage s - 1) s) b in
    loadMovies b
  else b.

(** ** Timers and the debounced search handler *)

Definition set_timers (l : list Timer) (b : Browser) : Browser :=
  mkBrowser (state b) (TMDB_TOKEN b) (dom b) (console b) (listeners b)
            (clock b) (next_timer b) l (expired b) (timeoutId b)
            (network b) (inflight b).

Definition set_clock (t : Z) (b : Browser) : Browser :=
  mkBrowser (state b) (TMDB_TOKEN b) (dom b) (console b) (listeners b)
            t (next_timer b) (timers b) (expired b) (timeoutId b)
            (network b) (inflight b).

Definition set_timeoutId (id : option nat) (b : Browser) : Browser :=
  mkBrowser (state b) (TMDB_TOKEN b) (dom b) (console b) (listeners b)
            (clock b) (next_timer b) (timers b) (expired b) id
            (network b) (inflight b).

(** [clearTimeout(id)]; an undefined or stale id cancels nothing. *)
Definition clearTimeout (id : option nat) (b : Browser) : Browser :=
  match id with
  | None => b
  | Some i => set_timers (filter (fun t => negb (timer_id t =? i)%nat) (timers b)) b
  end.

(** [setTimeout(() => func.apply(this, args), delay)]: returns the fresh
    timer id. *)
Definition setTimeout (args : string) (delay : Z) (b : Browser) : Browser * nat :=
  let id := next_timer b in
  (mkBrowser (state b) (TMDB_TOKEN b) (dom b) (console b) (listeners b)
             (clock b) (S id)
             (timers b ++ [mkTimer id (clock b + delay) args])
             (expired b) (timeoutId b) (network b) (inflight b),
   id).

(** The function returned by [debounce(func, delay)], applied to [args]. *)
Definition debounce (delay : Z) (args : string) (b : Browser) : Browser :=
  let b := clearTimeout (timeoutId b) b in
  let '(b, id) := setTimeout args delay b in
  set_timeoutId (Some id) b.

(** [handleSearch = debounce((query) => {...}, 500)] *)
Definition handleSearch (query : string) (b : Browser) : Browser :=
  debounce 500 query b.

(** A timeout runs: the clock stands at its due time and the debounced
    function is applied to the saved arguments. *)
Definition expire (t : Timer) (b : Browser) : Browser :=
  let now := Z.max (clock b) (timer_due t) in
  let b :=
    mkBrowser (state b) (TMDB_TOKEN b) (dom b) (console b) (listeners b)
              now (next_timer b) (timers b) (expired b ++ [(now, timer_args t)])
              (timeoutId b) (network b) (inflight b) in
  handleSearch_func (timer_args t) b.

(** Timers ordered by due time, earlier registrations first among equals. *)
Fixpoint insert_by_due (t : Timer) (l : list Timer) : list Timer :=
  match l with
  | [] => [t]
  | u :: r => if (timer_due u <=? timer_due t)%Z then u :: insert_by_due t r
              else t :: l
  end.

Definition sort_by_due (l : list Timer) : list Timer :=
  fold_right insert_by_due [] (rev l).

(** [dt] milliseconds pass: every timeout due by then runs, in order.  (The
    debounced function sets no timers, so the due ones are known up front.) *)
Definition elapse (dt : Z) (b : Browser) : Browser :=
  if (dt <? 0)%Z then b
  else
    let target := clock b + dt in
    let is_due := fun t => (timer_due t <=? target)%Z in
    let due := sort_by_due (filter is_due (timers b)) in
    let b := set_timers (filter (fun t => negb (is_due t)) (timers b)) b in
    let b := fold_left (fun b t => expire t b) due b in
    set_clock target b.

(** ** Initialisation *)

(** [loadGenres()] up to its [await]; the flag tells whether it suspended
    on a [fetch] ([true]) or already finished through its [catch] block. *)
Definition loadGenres (b : Browser) : Browser * bool :=
  match fetchFromTMDB "/genre/movie/list" [] AwaitGenres b with
  | (b, None) => (b, true)
  | (b, Some _) => (loadGenres_catch b, false)
  end.

(** [initializeEventListeners()] *)
Definition initializeEventListeners (b : Browser) : Browser :=
  set_listeners true b.

(** [init()] up to its first suspension. *)
Definition init (b : Browser) : Browser :=
  if negb (Js.truthy_opt (TMDB_TOKEN b)) then
    showStatus
      "TMDB API token not configured. Please set window.TMDB_TOKEN in your browser console or configuration."
      "error" b
  else
    let b := initializeEventListeners b in
    let '(b, suspended) := loadGenres b in
    if suspended then b else loadMovies b.

(** The page before [init] runs, for a given token and document. *)
Definition boot (token : option string) (d : Dom) : Browser :=
  {| state := initial_state;
     TMDB_TOKEN := token;
     dom := d;
     console := [];
     listeners := false;
     clock := 0;
     next_timer := 1;
     timers := [];
     expired := [];
     timeoutId := None;
     network := [];
     inflight := [] |}.

(** ** Events *)

Inductive Event :=
| Input (text : string)                (* 'input' on #searchInput *)
| ChangeCategory (value : string)      (* 'change' on #categorySelect *)
| ChangeGenre (value : string)         (* 'change' on #genreSelect *)
| ClickPrev                            (* 'click' on #prevBtn *)
| ClickNext                            (* 'click' on #nextBtn *)
| Elapse (dt : Z)                      (* time passes *)
| Settle (i : nat) (o : Outcome).      (* the i-th outstanding fetch settles *)

(** Removal of the i-th element. *)
Fixpoint remove_nth {A} (i : nat) (l : list A) : list A :=
  match l, i with
  | [], _ => []
  | _ :: r, O => r
  | x :: r, S j => x :: remove_nth j r
  end.

(** An outstanding fetch settles and the function awaiting it resumes. *)
Definition settle (i : nat) (o : Outcome) (b : Browser) : Browser :=
  match nth_error (inflight b) i with
  | None => b
  | Some (_, k) =>
      let b := set_inflight (remove_nth i (inflight b)) b in
      match k with
      | AwaitGenres => loadGenres_resume o b
      | AwaitMovies => loadMovies_resume o b
      end
  end.

(** One event of the page's event loop.  User events reach a handler only
    once the listeners are attached, and a disabled button dispatches no
    click. *)
Definition step (e : Event) (b : Browser) : Browser :=
  match e with
  | Input text =>
      if listeners b then handleSearch text (set_searchInput text b) else set_searchInput text b
  | ChangeCategory v => if listeners b then handleCategoryChange v b else b
  | ChangeGenre v => if listeners b then handleGenreChange v b else b
  | ClickPrev =>
      if listeners b && negb (prevBtn_disabled (dom b)) then goToPage "prev" b else b
  | ClickNext =>
      if listeners b && negb (nextBtn_disabled (dom b)) then goToPage "next" b else b
  | Elapse dt => elapse dt b
  | Settle i o => settle i o b
  end.

Definition run (events : list Event) (b : Browser) : Browser :=
  fold_left (fun b e => step e b) events b.

(** The states the page can be in: [init] on a fresh page, then events. *)
Definition reachable (b : Browser) : Prop :=
  exists token d events, b = run events (init (boot token d)).

(** A document with nothing rendered yet. *)
Definition blank_dom : Dom :=
  {| statusBar := None;
     statusBar_hidden := true;
     moviesGrid := GridCleared;
     pageInfo := "";
     prevBtn_disabled := false;
     nextBtn_disabled := false;
     searchInput := "";
     genreSelect := [] |}.

(** * Vocabulary of the properties *)

(** ** Rating badge *)

(** The three classes [getRatingColor] can return, one per band: good,
    medium and poor. *)
Definition good_class : string := "text-green-400".
Definition medium_class : string := "text-yellow-400".
Definition poor_class : string := "text-red-400".
Definition band_classes : list string := [good_class; medium_class; poor_class].

(** ** Request derivation *)

(** Lookup of a key in a [params] object. *)
Fixpoint param (key : string) (ps : list (string * PVal)) : option PVal :=
  match ps with
  | [] => None
  | (k, v) :: r => if String.eqb k key then Some v else param key r
  end.

(** Page 3 of the search for "matrix" within genre 28. *)
Definition sample_search_state : State :=
  mkState "popular" 3 10 "matrix" "28" (Some []) false.

(** Page 2 of the top-rated list, no genre selected. *)
Definition sample_browse_state : State :=
  mkState "top_rated" 2 10 "" "" (Some []) false.

(** A category value the selector does not offer, with genre 18. *)
Definition sample_unknown_category_state : State :=
  mkState "upcoming" 1 1 "" "18" (Some []) false.

(** ** Missing credential *)

(** The message of the error thrown by [fetchFromTMDB]. *)
Definition token_missing_message : string :=
  "TMDB API token not found. Please set window.TMDB_TOKEN".

(** The message [init] shows in the status bar. *)
Definition token_not_configured_message : string :=
  "TMDB API token not configured. Please set window.TMDB_TOKEN in your browser console or configuration.".

(** A page whose [init] stopped for want of a token: nothing is attached,
    pending or outstanding, and no request was made. *)
Definition inert (b : Browser) : Prop :=
  listeners b = false /\ timers b = [] /\ inflight b = [] /\ network b = [].

(** ** Filters and pagination *)

(** The actions that trigger a load: the search intent delivered by the
    debounce timer, the two selectors and the pagination buttons. *)
Inductive Trigger :=
| SearchIntent (query : string)
| CategoryChange (category : string)
| GenreChange (genreId : string)
| Paginate (direction : string).

(** The handler each action runs. *)
Definition trigger (a : Trigger) (b : Browser) : Browser :=
  match a with
  | SearchIntent q => handleSearch_func q b
  | CategoryChange c => handleCategoryChange c b
  | GenreChange g => handleGenreChange g b
  | Paginate d => goToPage d b
  end.

(** The three filter actions. *)
Definition is_filter (a : Trigger) : bool :=
  match a with
  | Paginate _ => false
  | _ => true
  end.

(** An idle page showing page 7 of 20. *)
Definition page7 : Browser :=
  upd_state (fun s => set_totalPages 20 (set_currentPage 7 s))
            (boot (Some "token") blank_dom).

(** Moving the cursor by [k] is all [goToPage] does to the page when the
    guard of [loadMovies] is closed. *)
Definition move_page (k : Z) (b : Browser) : Browser :=
  upd_state (fun s => set_currentPage (currentPage s + k) s) b.

(** An idle page showing the last page, 7 of 7. *)
Definition last_page : Browser :=
  upd_state (fun s => set_totalPages 7 (set_currentPage 7 s))
            (boot (Some "token") blank_dom).

(** Page 7 of 20 with the fetch for it still outstanding. *)
Definition page7_loading : Browser := loadMovies page7.

(** *** At most one movie fetch outstanding *)

(** The outstanding fetch was issued by [loadMovies]. *)
Definition awaits_movies (p : Request * Cont) : bool :=
  match snd p with
  | AwaitMovies => true
  | AwaitGenres => false
  end.

(** Number of outstanding fetches issued by [loadMovies]. *)
Definition movie_fetches (b : Browser) : nat :=
  length (filter awaits_movies (inflight b)).

(** [isLoading] tells exactly whether a movie fetch is outstanding. *)
Definition guard_inv (b : Browser) : Prop :=
  movie_fetches b = if isLoading (state b) then 1%nat else 0%nat.

(** A page with the genre list loaded and the first movie fetch outstanding. *)
Definition first_load : Browser :=
  run [Settle 0 (Response 200 "OK" (Parsed (mkJson None None (Some []))))]
      (init (boot (Some "token") blank_dom)).

(** ** Debounce *)

(** The page after a keystroke delivered [text] to the debounced handler:
    the input shows [text] and the only pending timeout is a fresh one, due
    500 ms from now, that carries [text]. *)
Definition armed (text : string) (b : Browser) : Browser :=
  mkBrowser (state b) (TMDB_TOKEN b) (dom (set_searchInput text b)) (console b)
            (listeners b) (clock b) (S (next_timer b))
            [mkTimer (next_timer b) (clock b + 500) text]
            (expired b) (Some (next_timer b)) (network b) (inflight b).

(** At most one timeout is pending, and it is the one the closure holds. *)
Definition one_pending (b : Browser) : Prop :=
  timers b = []
  \/ exists t, timers b = [t] /\ timeoutId b = Some (timer_id t).

(** The four keystrokes of the scenario, at 0, 100, 200 and 600 ms. *)
Definition keystrokes (x0 x1 x2 x3 : string) : list Event :=
  [Input x0; Elapse 100; Input x1; Elapse 100; Input x2; Elapse 400; Input x3].

(** A page whose [init] ran with a token: listeners attached, no timer set. *)
Definition started : Browser := init (boot (Some "token") blank_dom).

(** ** The page cursor and the page count *)

(** A successful response reporting [tp] pages. *)
Definition pages_response (tp : Z) : Outcome :=
  Response 200 "OK" (Parsed (mkJson (Some []) (Some tp) None)).

(** Trending has ten pages, the search for "x" has one.  The user moves to
    page 2 of trending; the search intent for "x" arrives while that fetch
    is outstanding and is dropped; once it settles the user moves on to
    page 2 again, which now is page 2 of the search. *)
Definition overshoot_events : list Event :=
  [ Settle 0 (Response 200 "OK" (Parsed (mkJson None None (Some []))));
    Settle 0 (pages_response 10);
    ClickNext;
    Input "x"; Elapse 500;
    Settle 0 (pages_response 10);
    ClickNext ].

(** The page after these events: the fetch for page 2 of the search is
    outstanding. *)
Definition overshoot_pending : Browser := run overshoot_events started.

(** C2 as stated: from the moment a fetch result has set [totalPages], the
    page never exceeds it. *)
Definition page_bound_claim : Prop :=
  forall (b : Browser) (i : nat) (r : Request) (o : Outcome) (data : Json)
         (events : list Event),
    reachable b ->
    nth_error (inflight b) i = Some (r, AwaitMovies) ->
    fetchFromTMDB_result o = inr data ->
    let b' := run events (step (Settle i o) b) in
    currentPage (state b') <= totalPages (state b').

(** The cursor is inside [1, totalPages]. *)
Definition page_inv (b : Browser) : Prop :=
  1 <= currentPage (state b) <= totalPages (state b).

(** A settling movie fetch reports at least as many pages (after the
    [|| 1] default and the clamp to 500) as the cursor's page; any other
    event qualifies. *)
Definition reports_enough (e : Event) (b : Browser) : Prop :=
  match e with
  | Settle i o =>
      match nth_error (inflight b) i, fetchFromTMDB_result o with
      | Some (_, AwaitMovies), inr data =>
          currentPage (state b) <= clamp_total_pages (total_pages data)
      | _, _ => True
      end
  | _ => True
  end.

(** Every event of a run qualifies in the state it arrives in. *)
Fixpoint consistent_run (events : list Event) (b : Browser) : Prop :=
  match events with
  | [] => True
  | e :: rest => reports_enough e b /\ consistent_run rest (step e b)
  end.

(** Browsing trending up to page 3 of 10. *)
Definition browse_events : list Event :=
  [ Settle 0 (Response 200 "OK" (Parsed (mkJson None None (Some []))));
    Settle 0 (pages_response 10);
    ClickNext;
    Settle 0 (pages_response 10);
    ClickNext;
    Settle 0 (pages_response 10) ].

(** ** White space stripping *)

(** Every character of the string is white space. *)
Fixpoint all_space (s : string) : bool :=
  match s with
  | EmptyString => true
  | String c r => Js.is_space c && all_space r
  end.

(** The string begins with a white space character. *)
Definition starts_with_space (s : string) : bool :=
  match s with
  | EmptyString => false
  | String c _ => Js.is_space c
  end.

(** The string ends with a white space character. *)
Fixpoint ends_with_space (s : string) : bool :=
  match s with
  | EmptyString => false
  | String c EmptyString => Js.is_space c
  | String _ r => ends_with_space r
  end.

(** [t] is [s] with its leading and trailing white space removed: [s] is
    [t] between two runs of white space, and [t] neither begins nor ends
    with white space. *)
Definition stripped_of (s t : string) : Prop :=
  exists lead trail,
    s = lead ++ t ++ trail
    /\ all_space lead = true /\ all_space trail = true
    /\ starts_with_space t = false /\ ends_with_space t = false.

(** ** Fetches in flight at startup *)

(** The user picks a category before the genre list has arrived. *)
Definition early_category_change : Browser := run [ChangeCategory "popular"] started.

(** C1's opening sentence as stated: at no time is more than one fetch in
    flight. *)
Definition single_fetch_claim : Prop :=
  forall b : Browser, reachable b -> (length (inflight b) <= 1)%nat.

(** The overshoot of the page count: once the search's page count has
    arrived the page shows "page 2 of 1". *)
Definition overshoot_settled : Browser :=
  step (Settle 0 (pages_response 1)) overshoot_pending.

(** * Vocabulary of the further properties *)

(** ** Starting a load *)

(** What [loadMovies] does to the page before it builds its request: the
    loading flag, the skeleton cards, the hidden status bar and the
    pagination controls. *)
Definition loading_ui (b : Browser) : Browser :=
  updatePaginationUI (hideStatus (renderSkeletons 12 (upd_state (set_isLoading true) b))).

(** The request [loadMovies] derives from a state, with the header for
    [token]. *)
Definition movies_request (s : State) (token : string) : Request :=
  mkRequest (fst (loadMovies_request s)) (snd (loadMovies_request s))
            ("Bearer " ++ token).

(** No load is in progress and a non-empty token is configured. *)
Definition idle_with_token (b : Browser) (token : string) : Prop :=
  isLoading (state b) = false /\ TMDB_TOKEN b = Some token /\ token <> "".

(** The pagination controls show what [state] holds. *)
Definition controls_agree (b : Browser) : Prop :=
  pageInfo (dom b)
  = "Page " ++ Js.int_to_string (currentPage (state b)) ++ " of "
            ++ Js.int_to_string (totalPages (state b))
  /\ prevBtn_disabled (dom b) = ((currentPage (state b) =? 1)%Z || isLoading (state b))
  /\ nextBtn_disabled (dom b)
     = ((currentPage (state b) >=? totalPages (state b))%Z || isLoading (state b)).

(** An idle page on page 3 of 10 of the popular list, token configured. *)
Definition idle_page : Browser :=
  upd_state (fun _ => mkState "popular" 3 10 "" "" (Some []) false)
            (boot (Some "token") blank_dom).

(** ** When a movie fetch settles *)

(** The text [loadMovies] puts in the status bar for an error message. *)
Definition shown_message (message : string) : string :=
  if Js.truthy message then message
  else "Failed to load movies. Please check your API token and try again.".

(** The status bar as [showStatus(_, 'error')] leaves it. *)
Definition error_banner (message : string) : option Status :=
  Some (mkStatus message "bg-red-900/50 border-red-700").

(** Page 2 of 10 of the trending list with its fetch outstanding. *)
Definition page2_loading : Browser :=
  loadMovies (upd_state (fun _ => mkState "trending" 2 10 "" "" (Some []) false)
                        (boot (Some "token") blank_dom)).

(** Two movies as the API returns them, the second with nothing but a title. *)
Definition two_movies : list Movie :=
  [ mkMovie "Alien" (Some "1979-05-25") (Some "/alien.jpg") (Some "In space.") (Some (81 # 10));
    mkMovie "Untitled" None None None None ].

(** ** Requests made by the handlers *)

(** The endpoints of the three categories. *)
Definition browse_endpoints : list string :=
  ["/trending/movie/week"; "/movie/popular"; "/movie/top_rated"].

(** An idle page in the middle of a search: page 4 of 9 for "alien" within
    genre 878, token configured. *)
Definition searching_page : Browser :=
  upd_state (fun _ => mkState "popular" 4 9 "alien" "878" (Some []) false)
            (boot (Some "token") blank_dom).

(** ** What holds in every reachable state *)

(** The page number lies in 1..500 and the page count does not exceed 500. *)
Definition cursor_bounds (b : Browser) : Prop :=
  1 <= currentPage (state b) <= 500 /\ totalPages (state b) <= 500.

(** The four endpoints [loadMovies] can target. *)
Definition movie_endpoints : list string :=
  "/search/movie" :: browse_endpoints.

(** A request for a page of movies: one of the four endpoints, with a page
    number in 1..500. *)
Definition movie_request_ok (r : Request) : Prop :=
  In (endpoint r) movie_endpoints
  /\ exists p, param "page" (params r) = Some (PNum p) /\ 1 <= p <= 500.

(** The request of [loadGenres]. *)
Definition genre_list_request (r : Request) : Prop :=
  endpoint r = "/genre/movie/list" /\ params r = [].

(** The request carries the page's non-empty token as a bearer credential. *)
Definition authorized (token : option string) (r : Request) : Prop :=
  exists t, token = Some t /\ t <> "" /\ authorization r = "Bearer " ++ t.

(** Without a token nothing was requested; with one, the log starts with
    the genre list request and continues with movie requests only. *)
Definition log_shape (b : Browser) : Prop :=
  (Js.truthy_opt (TMDB_TOKEN b) = false /\ network b = [])
  \/ (exists r rest,
        network b = r :: rest /\ genre_list_request r /\ Forall movie_request_ok rest).

Definition traffic_inv (b : Browser) : Prop :=
  cursor_bounds b /\ Forall (authorized (TMDB_TOKEN b)) (network b) /\ log_shape b.

(** While a load is in progress both pagination buttons are disabled. *)
Definition loading_locks (b : Browser) : Prop :=
  isLoading (state b) = true ->
  prevBtn_disabled (dom b) = true /\ nextBtn_disabled (dom b) = true.

(** At most one timeout is pending, the closure holds it, and it is due
    within the next 500 ms. *)
Definition timer_inv (b : Browser) : Prop :=
  one_pending b
  /\ Forall (fun t => clock b < timer_due t <= clock b + 500) (timers b).

(** A page in use: some browsing, then a search typed during a load. *)
Definition busy_page : Browser :=
  run [ Settle 0 (Response 200 "OK" (Parsed (mkJson None None (Some []))));
        Settle 0 (pages_response 10000);
        ClickNext;
        Input "al"; Elapse 200; Input "alien" ] started.

(** ** Bursts of keystrokes *)

(** Keystrokes, each followed by a pause: [(text, pause)] stands for typing
    [text] and then waiting [pause] milliseconds. *)
Fixpoint burst (keys : list (string * Z)) : list Event :=
  match keys with
  | [] => []
  | (text, pause) :: rest => Input text :: Elapse pause :: burst rest
  end.

(** Total length of the pauses of a burst. *)
Definition burst_time (keys : list (string * Z)) : Z :=
  fold_right (fun k acc => snd k + acc) 0 keys.

(** ** Startup *)

(** The request [loadGenres] makes with [token]. *)
Definition genres_request (token : string) : Request :=
  mkRequest "/genre/movie/list" [] ("Bearer " ++ token).

(** The options [loadGenres] writes into the genre selector. *)
Definition genre_options (gs : list Genre) : list (string * string) :=
  ("", "All Genres") :: map (fun g => (Js.int_to_string (genre_id g), genre_name g)) gs.

(** The genre fetch of [started] answered with two genres. *)
Definition genres_loaded : Browser :=
  settle 0 (Response 200 "OK"
              (Parsed (mkJson None None
                         (Some [mkGenre 28 "Action"; mkGenre 18 "Drama"])))) started.

(** ** Outstanding fetches *)

(** The outstanding fetch was issued by [loadGenres]. *)
Definition awaits_genres (p : Request * Cont) : bool :=
  match snd p with
  | AwaitGenres => true
  | AwaitMovies => false
  end.

(** Number of outstanding genre list fetches. *)
Definition genre_fetches (b : Browser) : nat :=
  length (filter awaits_genres (inflight b)).

(** A movie with nothing but a title. *)
Definition bare_movie : Movie := mkMovie "Untitled" None None None None.

(** A page whose [init] found no token. *)
Definition unconfigured : Browser := init (boot None blank_dom).

(** * Properties *)

(** ** Sample evaluations *)

Example formatRating_8_25 : formatRating (Some (33 # 4)) = "8.3".
Proof. reflexivity. Qed.

Example formatRating_neg : formatRating (Some (-1 # 100)) = "-0.0".
Proof. reflexivity. Qed.

Example trim_example : Js.trim "  the  matrix  " = "the  matrix".
Proof. reflexivity. Qed.

(** ** Rating badge *)

Lemma rating_ge_true (q bound : Q) : (bound <= q)%Q -> rating_ge (Some q) bound = true.
Proof. intros H. cbn. now apply Qle_bool_iff. Qed.

Lemma rating_ge_false (q bound : Q) : (q < bound)%Q -> rating_ge (Some q) bound = false.
Proof.
  intros H. cbn. destruct (Qle_bool bound q) eqn:E; [|reflexivity].
  apply Qle_bool_iff in E. exfalso. exact (Qlt_not_le _ _ H E).
Qed.

Lemma getRatingColor_total (r : Rating) : In (getRatingColor r) band_classes.
Proof.
  unfold getRatingColor, band_classes.
  destruct (rating_ge r (15 # 2)); [now left|].
  destruct (rating_ge r (6 # 1)); [right; now left | right; right; now left].
Qed.

(** C7, as stated, fails: an absent rating is printed as "N/A" but its badge
    is not neutral, it carries one of the three band classes. *)
Lemma C7_absent_rating_is_not_neutral :
  ~ (formatRating None = "N/A" /\ ~ In (getRatingColor None) band_classes).
Proof. intros [_ H]. apply H. apply getRatingColor_total. Qed.

(** C7 (amended): ratings of at least 7.5 get the good class, ratings in
    [6.0, 7.5) the medium class, ratings below 6.0 the poor class; an absent
    rating is printed as "N/A" and its badge carries the poor class, the
    code having no neutral one. *)
Theorem C7_rating_bands :
  (forall q : Q, (15 # 2 <= q)%Q -> getRatingColor (Some q) = good_class)
  /\ (forall q : Q, (6 # 1 <= q)%Q -> (q < 15 # 2)%Q -> getRatingColor (Some q) = medium_class)
  /\ (forall q : Q, (q < 6 # 1)%Q -> getRatingColor (Some q) = poor_class)
  /\ formatRating None = "N/A"
  /\ getRatingColor None = poor_class.
Proof.
  repeat split.
  - intros q H. unfold getRatingColor. now rewrite (rating_ge_true _ _ H).
  - intros q H6 H75. unfold getRatingColor.
    now rewrite (rating_ge_false _ _ H75), (rating_ge_true _ _ H6).
  - intros q H. unfold getRatingColor.
    assert (H75 : (q < 15 # 2)%Q) by (eapply Qlt_trans; [exact H | reflexivity]).
    now rewrite (rating_ge_false _ _ H75), (rating_ge_false _ _ H).
Qed.

(** The spec's sample inputs 7.5, 6.0 and 5.999. *)
Lemma C7_rating_bands_witness :
  getRatingColor (Some (15 # 2)) = good_class
  /\ getRatingColor (Some (6 # 1)) = medium_class
  /\ getRatingColor (Some (5999 # 1000)) = poor_class.
Proof.
  destruct C7_rating_bands as (Hgood & Hmedium & Hpoor & _).
  split; [|split].
  - apply Hgood. discriminate.
  - apply Hmedium; [discriminate | reflexivity].
  - apply Hpoor. reflexivity.
Defined.

(** C9: a vote average of exactly 0 is falsy, so [formatRating] prints
    "N/A" for it, as for an absent rating, and the rendered card shows a
    zero-rated movie like an unrated one. *)
Theorem C9_zero_rating_shown_as_absent :
  (forall d : positive, formatRating (Some (0 # d)) = "N/A")
  /\ formatRating (Some 0%Q) = formatRating None
  /\ Js.toFixed1 0%Q = "0.0"
  /\ (forall t rd pp ov,
        card_rating (renderCard (mkMovie t rd pp ov (Some 0%Q)))
        = card_rating (renderCard (mkMovie t rd pp ov None))).
Proof.
  repeat split.
Qed.

(** ** What [loadMovies] does and does not touch *)

(** The in-flight guard: while loading, [loadMovies] returns at once. *)
Lemma loadMovies_guard (b : Browser) :
  isLoading (state b) = true -> loadMovies b = b.
Proof. intros H. unfold loadMovies. now rewrite H. Qed.

Ltac loadMovies_cases b :=
  unfold loadMovies;
  destruct (isLoading (state b)) eqn:?;
  [ try reflexivity
  | let ep := fresh "ep" in
    let ps := fresh "ps" in
    match goal with
    | |- context [loadMovies_request ?s] =>
        destruct (loadMovies_request s) as [ep ps]
    end;
    unfold fetchFromTMDB;
    cbn [TMDB_TOKEN updatePaginationUI hideStatus renderSkeletons
         set_moviesGrid upd_dom upd_state];
    destruct (Js.truthy_opt (TMDB_TOKEN b)) eqn:?; cbn ].

Lemma loadMovies_currentPage (b : Browser) :
  currentPage (state (loadMovies b)) = currentPage (state b).
Proof. loadMovies_cases b; reflexivity. Qed.

Lemma loadMovies_totalPages (b : Browser) :
  totalPages (state (loadMovies b)) = totalPages (state b).
Proof. loadMovies_cases b; reflexivity. Qed.

Lemma loadMovies_searchQuery (b : Browser) :
  searchQuery (state (loadMovies b)) = searchQuery (state b).
Proof. loadMovies_cases b; reflexivity. Qed.

Lemma loadMovies_timers (b : Browser) :
  timers (loadMovies b) = timers b /\ expired (loadMovies b) = expired b
  /\ clock (loadMovies b) = clock b /\ timeoutId (loadMovies b) = timeoutId b
  /\ next_timer (loadMovies b) = next_timer b.
Proof. loadMovies_cases b; repeat split. Qed.

Lemma loadMovies_token (b : Browser) : TMDB_TOKEN (loadMovies b) = TMDB_TOKEN b.
Proof. loadMovies_cases b; reflexivity. Qed.

(** With a token and no load in progress, [loadMovies] issues exactly the
    request derived from [state] and suspends on it. *)
Lemma loadMovies_issues (b : Browser) (token : string) :
  isLoading (state b) = false ->
  TMDB_TOKEN b = Some token -> Js.truthy token = true ->
  let r := mkRequest (fst (loadMovies_request (state b)))
                     (snd (loadMovies_request (state b))) ("Bearer " ++ token) in
  network (loadMovies b) = (network b ++ [r])%list
  /\ inflight (loadMovies b) = (inflight b ++ [(r, AwaitMovies)])%list
  /\ isLoading (state (loadMovies b)) = true.
Proof.
  intros Hl Ht Htr. unfold loadMovies. rewrite Hl.
  change (loadMovies_request _) with (loadMovies_request (state b)).
  destruct (loadMovies_request (state b)) as [ep ps].
  unfold fetchFromTMDB.
  cbn [TMDB_TOKEN updatePaginationUI hideStatus renderSkeletons
       set_moviesGrid upd_dom upd_state].
  rewrite Ht. cbn [Js.truthy_opt]. rewrite Htr. cbn. repeat split.
Qed.

(** ** Request derivation *)

Lemma truthy_nonempty (s : string) : s <> "" -> Js.truthy s = true.
Proof. destruct s; [congruence | reflexivity]. Qed.

Lemma category_endpoint (s : State) :
  searchQuery s = "" ->
  (currentCategory s = "trending" -> fst (loadMovies_request s) = "/trending/movie/week")
  /\ (currentCategory s = "popular" -> fst (loadMovies_request s) = "/movie/popular")
  /\ (currentCategory s = "top_rated" -> fst (loadMovies_request s) = "/movie/top_rated")
  /\ (currentCategory s <> "trending" -> currentCategory s <> "popular" ->
      currentCategory s <> "top_rated" ->
      fst (loadMovies_request s) = "/trending/movie/week").
Proof.
  intros Hq. unfold loadMovies_request. rewrite Hq. cbn [Js.truthy].
  destruct (Js.truthy (selectedGenre s)); cbn [fst];
    (repeat split; [intros -> .. | intros Ht Hp Hr]; try reflexivity;
     destruct (String.eqb_spec (currentCategory s) "trending"); [congruence|];
     destruct (String.eqb_spec (currentCategory s) "popular"); [congruence|];
     destruct (String.eqb_spec (currentCategory s) "top_rated"); [congruence|];
     reflexivity).
Qed.

Lemma request_params (s : State) :
  param "page" (snd (loadMovies_request s)) = Some (PNum (currentPage s))
  /\ param "query" (snd (loadMovies_request s))
     = (if Js.truthy (searchQuery s) then Some (PStr (searchQuery s)) else None)
  /\ param "with_genres" (snd (loadMovies_request s))
     = (if Js.truthy (selectedGenre s) then Some (PStr (selectedGenre s)) else None).
Proof.
  unfold loadMovies_request.
  destruct (Js.truthy (searchQuery s)), (Js.truthy (selectedGenre s));
    repeat split.
Qed.

(** C5: the request derived from a state targets the search endpoint with
    [query = searchQuery] when the search text is non-empty, otherwise the
    endpoint of the category (trending for an unrecognised one); a selected
    genre is attached as [with_genres] on either path, and the page number
    always is.  It is the request [loadMovies] issues. *)
Theorem C5_request_derivation (s : State) :
  let ep := fst (loadMovies_request s) in
  let ps := snd (loadMovies_request s) in
  (searchQuery s <> "" ->
     ep = "/search/movie" /\ param "query" ps = Some (PStr (searchQuery s)))
  /\ (searchQuery s = "" ->
        param "query" ps = None
        /\ (currentCategory s = "trending" -> ep = "/trending/movie/week")
        /\ (currentCategory s = "popular" -> ep = "/movie/popular")
        /\ (currentCategory s = "top_rated" -> ep = "/movie/top_rated")
        /\ (currentCategory s <> "trending" -> currentCategory s <> "popular" ->
            currentCategory s <> "top_rated" -> ep = "/trending/movie/week"))
  /\ (selectedGenre s <> "" -> param "with_genres" ps = Some (PStr (selectedGenre s)))
  /\ (selectedGenre s = "" -> param "with_genres" ps = None)
  /\ param "page" ps = Some (PNum (currentPage s))
  /\ (forall (b : Browser) (token : string),
        state b = s -> isLoading s = false ->
        TMDB_TOKEN b = Some token -> token <> "" ->
        network (loadMovies b)
        = (network b ++ [mkRequest ep ps ("Bearer " ++ token)])%list).
Proof.
  cbv zeta. destruct (request_params s) as (Hpage & Hquery & Hgenre).
  repeat apply conj.
  - intros Hq. rewrite Hquery, (truthy_nonempty _ Hq). split; [|reflexivity].
    unfold loadMovies_request. rewrite (truthy_nonempty _ Hq).
    destruct (Js.truthy (selectedGenre s)); reflexivity.
  - intros Hq. split; [rewrite Hquery, Hq; reflexivity|].
    now apply category_endpoint.
  - intros Hg. now rewrite Hgenre, (truthy_nonempty _ Hg).
  - intros Hg. now rewrite Hgenre, Hg.
  - exact Hpage.
  - intros b token <- Hl Ht Htok.
    apply (loadMovies_issues b token Hl Ht (truthy_nonempty _ Htok)).
Qed.

Lemma C5_request_derivation_witness :
  loadMovies_request sample_search_state
    = ("/search/movie",
       [("page", PNum 3); ("query", PStr "matrix"); ("with_genres", PStr "28")])
  /\ fst (loadMovies_request sample_browse_state) = "/movie/top_rated"
  /\ param "with_genres" (snd (loadMovies_request sample_browse_state)) = None
  /\ fst (loadMovies_request sample_unknown_category_state) = "/trending/movie/week"
  /\ param "with_genres" (snd (loadMovies_request sample_unknown_category_state))
     = Some (PStr "18")
  /\ network (loadMovies (upd_state (fun _ => sample_search_state)
                                    (boot (Some "token") blank_dom)))
     = [mkRequest "/search/movie"
          [("page", PNum 3); ("query", PStr "matrix"); ("with_genres", PStr "28")]
          "Bearer token"].
Proof.
  pose proof (C5_request_derivation sample_search_state) as H1.
  pose proof (C5_request_derivation sample_browse_state) as H2.
  pose proof (C5_request_derivation sample_unknown_category_state) as H3.
  cbv zeta in H1, H2, H3.
  destruct H1 as (Hs1 & _ & Hg1 & _ & _ & Hissue).
  destruct H2 as (_ & Hb2 & _ & Hg2 & _).
  destruct H3 as (_ & Hb3 & Hg3 & _ & _).
  split; [reflexivity|].
  split; [apply Hb2; reflexivity|].
  split; [apply Hg2; reflexivity|].
  split; [apply Hb3; [reflexivity | discriminate ..]|].
  split; [apply Hg3; discriminate|].
  apply (Hissue (upd_state (fun _ => sample_search_state)
                           (boot (Some "token") blank_dom)) "token");
    [reflexivity | reflexivity | reflexivity | discriminate].
Defined.

(** ** Missing credential *)

Lemma step_inert (e : Event) (b : Browser) : inert b -> inert (step e b).
Proof.
  intros (Hl & Ht & Hi & Hn). destruct e; cbn [step]; rewrite ?Hl; cbn [andb].
  1-5: repeat split; assumption.
  - unfold elapse. destruct (dt <? 0)%Z; [repeat split; assumption|].
    cbv zeta. rewrite Ht. cbn. repeat split; assumption.
  - unfold settle. rewrite Hi. destruct i; cbn; repeat split; assumption.
Qed.

Lemma run_inert (events : list Event) (b : Browser) : inert b -> inert (run events b).
Proof.
  revert b. induction events as [|e events IH]; intros b H; [exact H|].
  cbn. apply IH. now apply step_inert.
Qed.

(** C6: without a token (undefined or empty), [fetchFromTMDB] rejects at
    once with the error naming the missing token and leaves the page
    untouched, so no [fetch] is issued; and [init] issues no request,
    attaches nothing and shows the configuration error in the status bar.
    A page started without a token makes no request whatever happens next. *)
Theorem C6_missing_token (b : Browser) :
  Js.truthy_opt (TMDB_TOKEN b) = false ->
  (forall endpoint params k,
      fetchFromTMDB endpoint params k b = (b, Some token_missing_message))
  /\ network (init b) = network b
  /\ inflight (init b) = inflight b
  /\ state (init b) = state b
  /\ statusBar (dom (init b))
     = Some (mkStatus token_not_configured_message "bg-red-900/50 border-red-700")
  /\ statusBar_hidden (dom (init b)) = false
  /\ (forall d events, network (run events (init (boot (TMDB_TOKEN b) d))) = []).
Proof.
  intros H. split.
  - intros endpoint params k. unfold fetchFromTMDB. now rewrite H.
  - unfold init at 1 2 3 4 5. rewrite H. cbn. repeat split.
    intros d events. apply run_inert. unfold init. cbn [TMDB_TOKEN boot].
    rewrite H. repeat split.
Qed.

Lemma C6_missing_token_witness :
  network (init (boot None blank_dom)) = []
  /\ inflight (init (boot None blank_dom)) = []
  /\ fetchFromTMDB "/movie/popular" [("page", PNum 1)] AwaitMovies (boot (Some "") blank_dom)
     = (boot (Some "") blank_dom, Some token_missing_message)
  /\ network (run [ChangeGenre "28"; ClickNext; Input "alien"; Elapse 500]
                  (init (boot None blank_dom))) = [].
Proof.
  destruct (C6_missing_token (boot None blank_dom) eq_refl) as (_ & Hn & Hi & _ & _ & _ & Hr).
  destruct (C6_missing_token (boot (Some "") blank_dom) eq_refl) as (Hf & _).
  split; [exact Hn|]. split; [exact Hi|]. split; [apply Hf | apply Hr].
Defined.

(** ** Filters and pagination *)

Lemma filter_resets_page (a : Trigger) (b : Browser) :
  is_filter a = true -> currentPage (state (trigger a b)) = 1.
Proof.
  destruct a; cbn [is_filter trigger]; try discriminate; intros _;
    unfold handleSearch_func, handleCategoryChange, handleGenreChange;
    rewrite loadMovies_currentPage; reflexivity.
Qed.

(** C3: each of the three filter actions leaves [currentPage] at 1, in any
    state, and so does any sequence of calls that ends with one. *)
Theorem C3_filters_reset_page (b : Browser) (calls : list Trigger) (a : Trigger) :
  is_filter a = true ->
  currentPage (state (trigger a b)) = 1
  /\ currentPage (state (fold_left (fun b a => trigger a b) (calls ++ [a]) b)) = 1.
Proof.
  intros Ha. split.
  - now apply filter_resets_page.
  - rewrite fold_left_app. cbn [fold_left]. now apply filter_resets_page.
Qed.

Lemma C3_filters_reset_page_witness :
  currentPage (state (trigger (GenreChange "28") page7)) = 1
  /\ currentPage (state (fold_left (fun b a => trigger a b)
       ([Paginate "next"; SearchIntent " alien "; Paginate "next"]
          ++ [GenreChange "28"]) page7)) = 1.
Proof. apply (C3_filters_reset_page page7); reflexivity. Defined.

Lemma goToPage_next (b : Browser) :
  currentPage (state b) < totalPages (state b) ->
  goToPage "next" b = loadMovies (move_page 1 b).
Proof.
  intros H. unfold goToPage. apply Z.ltb_lt in H. rewrite H. reflexivity.
Qed.

Lemma goToPage_prev (b : Browser) :
  currentPage (state b) > 1 ->
  goToPage "prev" b = loadMovies (move_page (-1) b).
Proof.
  intros H. unfold goToPage. cbn [String.eqb Ascii.eqb Bool.eqb andb].
  rewrite Z.gtb_ltb. apply Z.gt_lt, Z.ltb_lt in H. rewrite H. reflexivity.
Qed.

Lemma goToPage_next_noop (b : Browser) :
  ~ currentPage (state b) < totalPages (state b) -> goToPage "next" b = b.
Proof.
  intros H. unfold goToPage. apply Z.ltb_nlt in H. rewrite H. reflexivity.
Qed.

Lemma goToPage_prev_noop (b : Browser) :
  ~ currentPage (state b) > 1 -> goToPage "prev" b = b.
Proof.
  intros H. unfold goToPage. cbn [String.eqb Ascii.eqb Bool.eqb andb].
  rewrite Z.gtb_ltb. destruct (Z.ltb_spec 1 (currentPage (state b))); [lia | reflexivity].
Qed.

Lemma goToPage_totalPages (d : string) (b : Browser) :
  totalPages (state (goToPage d b)) = totalPages (state b).
Proof.
  unfold goToPage.
  destruct (_ && _); [now rewrite loadMovies_totalPages|].
  destruct (_ && _); [now rewrite loadMovies_totalPages | reflexivity].
Qed.

Lemma goToPage_in_bounds (d : string) (b : Browser) :
  1 <= currentPage (state b) <= totalPages (state b) ->
  1 <= currentPage (state (goToPage d b)) <= totalPages (state b).
Proof.
  intros H. unfold goToPage.
  destruct (String.eqb d "next"); cbn [andb].
  - destruct (Z.ltb_spec (currentPage (state b)) (totalPages (state b))).
    + rewrite loadMovies_currentPage. cbn. lia.
    + destruct (String.eqb d "prev"); cbn [andb]; [|exact H].
      rewrite Z.gtb_ltb.
      destruct (Z.ltb_spec 1 (currentPage (state b))); [|exact H].
      rewrite loadMovies_currentPage. cbn. lia.
  - destruct (String.eqb d "prev"); cbn [andb]; [|exact H].
    rewrite Z.gtb_ltb.
    destruct (Z.ltb_spec 1 (currentPage (state b))); [|exact H].
    rewrite loadMovies_currentPage. cbn. lia.
Qed.

(** C4: [goToPage('next')] adds exactly 1 to the page when
    [currentPage < totalPages] and changes nothing otherwise;
    [goToPage('prev')] subtracts exactly 1 when [currentPage > 1] and changes
    nothing otherwise; [totalPages] is untouched, so a page inside
    [1, totalPages] stays inside it. *)
Theorem C4_pagination_bounds (b : Browser) :
  let p := currentPage (state b) in
  let t := totalPages (state b) in
  (p < t -> currentPage (state (goToPage "next" b)) = p + 1)
  /\ (~ p < t -> goToPage "next" b = b)
  /\ (p > 1 -> currentPage (state (goToPage "prev" b)) = p - 1)
  /\ (~ p > 1 -> goToPage "prev" b = b)
  /\ (forall d, totalPages (state (goToPage d b)) = t)
  /\ (forall d, 1 <= p <= t -> 1 <= currentPage (state (goToPage d b)) <= t).
Proof.
  cbv zeta. repeat apply conj.
  - intros H. rewrite (goToPage_next _ H), loadMovies_currentPage. reflexivity.
  - apply goToPage_next_noop.
  - intros H. rewrite (goToPage_prev _ H), loadMovies_currentPage. reflexivity.
  - apply goToPage_prev_noop.
  - intros d. apply goToPage_totalPages.
  - intros d. apply goToPage_in_bounds.
Qed.

Lemma C4_pagination_bounds_witness :
  currentPage (state (goToPage "next" page7)) = 8
  /\ currentPage (state (goToPage "prev" page7)) = 6
  /\ goToPage "next" last_page = last_page
  /\ goToPage "prev" (boot (Some "token") blank_dom) = boot (Some "token") blank_dom
  /\ 1 <= currentPage (state (goToPage "next" page7)) <= 20.
Proof.
  pose proof (C4_pagination_bounds page7) as H7.
  pose proof (C4_pagination_bounds last_page) as Hl.
  pose proof (C4_pagination_bounds (boot (Some "token") blank_dom)) as H1.
  cbv zeta in H7, Hl, H1.
  destruct H7 as (Hn & _ & Hp & _ & _ & Hb).
  destruct Hl as (_ & Hln & _).
  destruct H1 as (_ & _ & _ & H1p & _).
  split; [apply Hn; reflexivity|].
  split; [apply Hp; reflexivity|].
  split; [apply Hln; discriminate|].
  split; [apply H1p; intros H; discriminate H|].
  apply Hb. split; discriminate.
Defined.

(** C10: with a load in progress, a [goToPage] whose bound check passes
    still moves [currentPage] by one, while the guard of [loadMovies] drops
    the fetch: no request is issued and nothing on the page is redrawn, so
    the cursor no longer matches what is displayed. *)
Theorem C10_page_moves_while_loading (b : Browser) :
  isLoading (state b) = true ->
  (currentPage (state b) < totalPages (state b) ->
     currentPage (state (goToPage "next" b)) = currentPage (state b) + 1
     /\ network (goToPage "next" b) = network b
     /\ inflight (goToPage "next" b) = inflight b
     /\ dom (goToPage "next" b) = dom b)
  /\ (currentPage (state b) > 1 ->
        currentPage (state (goToPage "prev" b)) = currentPage (state b) - 1
        /\ network (goToPage "prev" b) = network b
        /\ inflight (goToPage "prev" b) = inflight b
        /\ dom (goToPage "prev" b) = dom b).
Proof.
  intros Hl. split; intros H.
  - rewrite (goToPage_next _ H), loadMovies_guard by exact Hl. repeat split.
  - rewrite (goToPage_prev _ H), loadMovies_guard by exact Hl. repeat split.
Qed.

Lemma C10_page_moves_while_loading_witness :
  isLoading (state page7_loading) = true
  /\ currentPage (state (goToPage "next" page7_loading)) = 8
  /\ network (goToPage "next" page7_loading) = network page7_loading
  /\ pageInfo (dom (goToPage "next" page7_loading)) = "Page 7 of 20"
  /\ currentPage (state (goToPage "prev" page7_loading)) = 6.
Proof.
  destruct (C10_page_moves_while_loading page7_loading eq_refl) as [Hn Hp].
  destruct (Hn eq_refl) as (Hn1 & Hn2 & _ & Hn4).
  destruct (Hp eq_refl) as (Hp1 & _).
  split; [reflexivity|].
  split; [exact Hn1|].
  split; [exact Hn2|].
  split; [rewrite Hn4; reflexivity | exact Hp1].
Defined.

(** ** The in-flight guard *)

(** While loading, a trigger changes neither the request log nor the set of
    outstanding fetches, and the page stays in the loading state. *)
Lemma trigger_while_loading (a : Trigger) (b : Browser) :
  isLoading (state b) = true ->
  network (trigger a b) = network b
  /\ inflight (trigger a b) = inflight b
  /\ isLoading (state (trigger a b)) = true.
Proof.
  intros Hl. destruct a; cbn [trigger].
  - unfold handleSearch_func. rewrite loadMovies_guard by exact Hl.
    repeat split. exact Hl.
  - unfold handleCategoryChange. rewrite loadMovies_guard by exact Hl.
    repeat split. exact Hl.
  - unfold handleGenreChange. rewrite loadMovies_guard by exact Hl.
    repeat split. exact Hl.
  - unfold goToPage.
    destruct (_ && _); [rewrite loadMovies_guard by exact Hl; repeat split; exact Hl|].
    destruct (_ && _); [rewrite loadMovies_guard by exact Hl; repeat split; exact Hl|].
    repeat split. exact Hl.
Qed.

(** *** At most one movie fetch outstanding *)

Lemma guard_inv_ext (b b' : Browser) :
  inflight b' = inflight b -> isLoading (state b') = isLoading (state b) ->
  guard_inv b -> guard_inv b'.
Proof. unfold guard_inv, movie_fetches. now intros -> ->. Qed.

Lemma loadMovies_guard_inv (b : Browser) : guard_inv b -> guard_inv (loadMovies b).
Proof.
  unfold guard_inv, movie_fetches. intros H.
  loadMovies_cases b;
    match goal with
    | E : isLoading (state b) = _ |- _ => rewrite ?E
    end.
  - exact H.
  - rewrite filter_app, length_app, H. reflexivity.
  - exact H.
Qed.

Lemma trigger_guard_inv (a : Trigger) (b : Browser) :
  guard_inv b -> guard_inv (trigger a b).
Proof.
  intros H.
  destruct a; cbn [trigger];
    unfold handleSearch_func, handleCategoryChange, handleGenreChange, goToPage;
    repeat match goal with
           | |- context [if ?c then _ else _] => destruct c
           end;
    try exact H;
    apply loadMovies_guard_inv; revert H; apply guard_inv_ext; reflexivity.
Qed.

Lemma filter_remove_nth {A} (f : A -> bool) (l : list A) (i : nat) (x : A) :
  nth_error l i = Some x ->
  length (filter f l)
  = (length (filter f (remove_nth i l)) + if f x then 1 else 0)%nat.
Proof.
  revert i. induction l as [|y l IH]; intros [|i] H; cbn in H; try discriminate.
  - injection H as ->. cbn. destruct (f x); cbn; lia.
  - cbn. pose proof (IH _ H) as IHi. destruct (f y); cbn; lia.
Qed.

Lemma settle_guard_inv (i : nat) (o : Outcome) (b : Browser) :
  guard_inv b -> guard_inv (settle i o b).
Proof.
  intros H. unfold settle.
  destruct (nth_error (inflight b) i) as [[r k]|] eqn:E; [|exact H].
  pose proof (filter_remove_nth awaits_movies _ _ _ E) as Hc.
  destruct k; cbn in Hc.
  - unfold loadGenres_resume. apply loadMovies_guard_inv.
    assert (H' : guard_inv (set_inflight (remove_nth i (inflight b)) b)).
    { unfold guard_inv, movie_fetches in *. cbn. lia. }
    destruct (fetchFromTMDB_result o) as [m|data];
      [|destruct (data_genres data)];
      revert H'; apply guard_inv_ext; reflexivity.
  - unfold guard_inv, movie_fetches in *.
    unfold loadMovies_resume.
    destruct (fetchFromTMDB_result o) as [m|data]; cbn.
    + destruct (isLoading (state b)); lia.
    + destruct (results data) as [[|]|]; cbn; destruct (isLoading (state b)); lia.
Qed.

Lemma expire_guard_inv (t : Timer) (b : Browser) :
  guard_inv b -> guard_inv (expire t b).
Proof.
  intros H. unfold expire.
  apply (trigger_guard_inv (SearchIntent (timer_args t))).
  revert H. apply guard_inv_ext; reflexivity.
Qed.

Lemma expire_all_guard_inv (due : list Timer) (b : Browser) :
  guard_inv b -> guard_inv (fold_left (fun b t => expire t b) due b).
Proof.
  revert b. induction due as [|t due IH]; intros b H; [exact H|].
  cbn [fold_left]. apply IH. now apply expire_guard_inv.
Qed.

Lemma elapse_guard_inv (dt : Z) (b : Browser) :
  guard_inv b -> guard_inv (elapse dt b).
Proof.
  intros H. unfold elapse. destruct (dt <? 0)%Z; [exact H|]. cbv zeta.
  eapply guard_inv_ext; [reflexivity | reflexivity |].
  apply expire_all_guard_inv.
  revert H. apply guard_inv_ext; reflexivity.
Qed.

Lemma step_guard_inv (e : Event) (b : Browser) :
  guard_inv b -> guard_inv (step e b).
Proof.
  intros H. destruct e; cbn [step].
  - destruct (listeners b);
      [unfold handleSearch, debounce, clearTimeout; cbn [timeoutId set_searchInput upd_dom];
       destruct (timeoutId b)|];
      revert H; apply guard_inv_ext; reflexivity.
  - destruct (listeners b); [|exact H].
    now apply (trigger_guard_inv (CategoryChange value)).
  - destruct (listeners b); [|exact H].
    now apply (trigger_guard_inv (GenreChange value)).
  - destruct (_ && _); [|exact H]. now apply (trigger_guard_inv (Paginate "prev")).
  - destruct (_ && _); [|exact H]. now apply (trigger_guard_inv (Paginate "next")).
  - now apply elapse_guard_inv.
  - now apply settle_guard_inv.
Qed.

Lemma init_guard_inv (token : option string) (d : Dom) :
  guard_inv (init (boot token d)).
Proof.
  unfold init, loadGenres, fetchFromTMDB. cbn [TMDB_TOKEN boot initializeEventListeners set_listeners].
  destruct (Js.truthy_opt token); reflexivity.
Qed.

Lemma run_guard_inv (events : list Event) (b : Browser) :
  guard_inv b -> guard_inv (run events b).
Proof.
  revert b. induction events as [|e events IH]; intros b H; [exact H|].
  cbn. apply IH. now apply step_guard_inv.
Qed.

Lemma reachable_guard_inv (b : Browser) : reachable b -> guard_inv b.
Proof.
  intros (token & d & events & ->). apply run_guard_inv, init_guard_inv.
Qed.

Lemma settle_movies_network (i : nat) (o : Outcome) (r : Request) (b : Browser) :
  nth_error (inflight b) i = Some (r, AwaitMovies) ->
  network (settle i o b) = network b
  /\ inflight (settle i o b) = remove_nth i (inflight b)
  /\ isLoading (state (settle i o b)) = false.
Proof.
  intros H. unfold settle, loadMovies_resume. rewrite H.
  destruct (fetchFromTMDB_result o) as [m|data]; [repeat split|].
  destruct (results data) as [[|]|]; repeat split.
Qed.

(** C1, as stated, fails on its opening sentence: the genre list fetch of
    [init] is not behind the [isLoading] guard and the listeners are
    attached before it settles, so a category change made at once puts a
    second fetch in flight. *)
Lemma C1_two_fetches_in_flight : ~ single_fetch_claim.
Proof.
  intros H.
  assert (Hr : reachable early_category_change).
  { exists (Some "token"), blank_dom, [ChangeCategory "popular"]. reflexivity. }
  assert (Hlen : length (inflight early_category_change) = 2%nat)
    by (vm_compute; reflexivity).
  specialize (H early_category_change Hr). rewrite Hlen in H. lia.
Qed.

(** C1 (amended): at most one fetch issued by [loadMovies] is in flight at
    any time, the genre list fetch of [init] apart.  While [isLoading] is
    true, none of the triggering actions (search
    intent, category change, genre change, pagination) issues a request or
    leaves one behind: the request log and the set of outstanding fetches
    are unchanged, and the page stays in the loading state; when the
    outstanding movie fetch settles, no request follows either, so the
    dropped attempt was not queued.  Moreover, in every state the page can
    reach, the fetches issued by [loadMovies] and not yet settled number one
    when [isLoading] is true and none otherwise. *)
Theorem C1_single_fetch_in_flight (b : Browser) (a : Trigger) :
  (isLoading (state b) = true ->
     network (trigger a b) = network b
     /\ inflight (trigger a b) = inflight b
     /\ isLoading (state (trigger a b)) = true
     /\ (forall i o r,
           nth_error (inflight b) i = Some (r, AwaitMovies) ->
           network (settle i o (trigger a b)) = network b))
  /\ (reachable b ->
        (movie_fetches b <= 1)%nat
        /\ (isLoading (state b) = true <-> movie_fetches b = 1%nat)).
Proof.
  split.
  - intros Hl. destruct (trigger_while_loading a b Hl) as (Hn & Hi & Hl').
    repeat split; try assumption.
    intros i o r Hnth. rewrite <- Hi in Hnth.
    destruct (settle_movies_network i o r _ Hnth) as [Hs _]. now rewrite Hs.
  - intros Hr. apply reachable_guard_inv in Hr. unfold guard_inv in Hr.
    destruct (isLoading (state b)); rewrite Hr; repeat split; auto; discriminate.
Qed.

Lemma C1_single_fetch_in_flight_witness :
  network (trigger (GenreChange "28") first_load) = network first_load
  /\ inflight (trigger (GenreChange "28") first_load) = inflight first_load
  /\ (movie_fetches first_load <= 1)%nat.
Proof.
  destruct (C1_single_fetch_in_flight first_load (GenreChange "28")) as [Hdrop Hinv].
  destruct (Hdrop eq_refl) as (Hn & Hi & _ & _).
  destruct Hinv as [Hle _].
  - exists (Some "token"), blank_dom,
      [Settle 0 (Response 200 "OK" (Parsed (mkJson None None (Some []))))].
    reflexivity.
  - split; [exact Hn|]. split; [exact Hi | exact Hle].
Defined.

(** ** Debounce *)

Lemma input_arms (text : string) (b : Browser) :
  listeners b = true -> one_pending b -> step (Input text) b = armed text b.
Proof.
  intros Hl Hp. cbn [step]. rewrite Hl.
  unfold handleSearch, debounce, clearTimeout, armed.
  cbn [timeoutId set_searchInput upd_dom timers].
  destruct Hp as [Ht | (t & Ht & Hid)].
  - destruct (timeoutId b); cbn; rewrite Ht; reflexivity.
  - rewrite Hid, Ht. cbn. rewrite Nat.eqb_refl. reflexivity.
Qed.

Lemma armed_one_pending (text : string) (b : Browser) : one_pending (armed text b).
Proof. right. eexists. split; reflexivity. Qed.

Lemma elapse_not_due (dt : Z) (t : Timer) (b : Browser) :
  timers b = [t] -> 0 <= dt -> clock b + dt < timer_due t ->
  elapse dt b = set_clock (clock b + dt) b.
Proof.
  intros Ht Hdt Hdue. unfold elapse.
  destruct (Z.ltb_spec dt 0); [lia|]. cbv zeta. rewrite Ht. cbn [filter].
  destruct (Z.leb_spec (timer_due t) (clock b + dt)); [lia|].
  cbn. destruct b; cbn in *; subst; reflexivity.
Qed.

Lemma elapse_due (dt : Z) (t : Timer) (b : Browser) :
  timers b = [t] -> 0 <= dt -> timer_due t <= clock b + dt ->
  elapse dt b = set_clock (clock b + dt) (expire t (set_timers [] b)).
Proof.
  intros Ht Hdt Hdue. unfold elapse.
  destruct (Z.ltb_spec dt 0); [lia|]. cbv zeta. rewrite Ht. cbn [filter].
  destruct (Z.leb_spec (timer_due t) (clock b + dt)); [|lia].
  reflexivity.
Qed.

(** A keystroke followed by less than the quiet period: the timeout set by
    the keystroke is still pending and nothing else happened. *)
Lemma type_and_wait (text : string) (dt : Z) (b : Browser) :
  listeners b = true -> one_pending b -> 0 <= dt < 500 ->
  step (Elapse dt) (step (Input text) b) = set_clock (clock b + dt) (armed text b).
Proof.
  intros Hl Hp Hdt. rewrite (input_arms text b Hl Hp). cbn [step].
  rewrite (elapse_not_due dt (mkTimer (next_timer b) (clock b + 500) text));
    [reflexivity | reflexivity | lia | cbn; lia].
Qed.

Lemma waiting_one_pending (text : string) (c : Z) (b : Browser) :
  one_pending (set_clock c (armed text b)).
Proof. right. eexists. split; reflexivity. Qed.

Lemma keystrokes_typed (b : Browser) (x0 x1 x2 x3 : string) :
  listeners b = true -> timers b = [] -> clock b = 0 ->
  run (keystrokes x0 x1 x2 x3) b
  = armed x3 (set_clock 600 (armed x2 (set_clock 200 (armed x1
      (set_clock 100 (armed x0 b)))))).
Proof.
  intros Hl Ht Hc. unfold keystrokes, run. cbn [fold_left].
  rewrite (type_and_wait x0 100 b Hl (or_introl Ht)) by lia.
  rewrite Hc. change (0 + 100) with 100.
  rewrite (type_and_wait x1 100) by (exact Hl || apply waiting_one_pending || (cbn; lia)).
  change (clock (set_clock 100 (armed x0 b)) + 100) with 200.
  rewrite (type_and_wait x2 400) by (exact Hl || apply waiting_one_pending || (cbn; lia)).
  change (clock (set_clock 200 (armed x1 (set_clock 100 (armed x0 b)))) + 400) with 600.
  rewrite input_arms by (exact Hl || apply waiting_one_pending).
  reflexivity.
Qed.

Lemma handleSearch_func_state (query : string) (b : Browser) :
  searchQuery (state (handleSearch_func query b)) = Js.trim query
  /\ currentPage (state (handleSearch_func query b)) = 1.
Proof.
  unfold handleSearch_func.
  rewrite loadMovies_searchQuery, loadMovies_currentPage. split; reflexivity.
Qed.

Lemma handleSearch_func_timers (query : string) (b : Browser) :
  timers (handleSearch_func query b) = timers b
  /\ expired (handleSearch_func query b) = expired b.
Proof.
  unfold handleSearch_func.
  match goal with
  | |- context [loadMovies ?x] => destruct (loadMovies_timers x) as (Ht & He & _)
  end.
  rewrite Ht, He. split; reflexivity.
Qed.

Lemma trimStart_strips (s : string) :
  exists lead,
    s = lead ++ Js.trimStart s
    /\ all_space lead = true /\ starts_with_space (Js.trimStart s) = false.
Proof.
  induction s as [|c r IH].
  - exists "". repeat split.
  - cbn [Js.trimStart]. destruct (Js.is_space c) eqn:Hc.
    + destruct IH as (lead & E & Hl & Hs). exists (String c lead).
      cbn [append all_space]. rewrite <- E, Hc, Hl. repeat split. exact Hs.
    + exists "". cbn. rewrite Hc. repeat split.
Qed.

Lemma trimEnd_strips (s : string) :
  exists trail,
    s = Js.trimEnd s ++ trail
    /\ all_space trail = true /\ ends_with_space (Js.trimEnd s) = false.
Proof.
  induction s as [|c r IH].
  - exists "". repeat split.
  - cbn [Js.trimEnd]. destruct IH as (trail & E & Ht & He).
    destruct (Js.trimEnd r) as [|a r'] eqn:Er.
    + cbn [append] in E. subst trail. destruct (Js.is_space c) eqn:Hc.
      * exists (String c r). cbn [append all_space]. rewrite Hc, Ht. repeat split.
      * exists r. cbn [append ends_with_space]. rewrite Hc. repeat split. exact Ht.
    + exists trail. cbn [append] in E |- *. rewrite <- E.
      split; [reflexivity|]. split; [exact Ht | exact He].
Qed.

Lemma trimEnd_keeps_start (s : string) :
  starts_with_space s = false -> starts_with_space (Js.trimEnd s) = false.
Proof.
  destruct s as [|c r]; [reflexivity|]. cbn [starts_with_space Js.trimEnd].
  intros Hc. destruct (Js.trimEnd r); [rewrite Hc|]; exact Hc.
Qed.

(** [trim] removes the leading and the trailing white space and nothing
    else. *)
Lemma trim_strips (s : string) : stripped_of s (Js.trim s).
Proof.
  unfold stripped_of, Js.trim.
  destruct (trimStart_strips s) as (lead & El & Hl & Hs).
  destruct (trimEnd_strips (Js.trimStart s)) as (trail & Et & Ht & He).
  exists lead, trail. rewrite <- Et, <- El.
  repeat split; try assumption. now apply trimEnd_keeps_start.
Qed.

(** C8: keystrokes at 0, 100, 200 and 600 ms on a page with nothing pending
    leave, at 600 ms, a single timeout due at 1100 ms that carries the last
    text; nothing runs before 1100 ms, and from 1100 ms on exactly one
    timeout has run, at 1100 ms with the last text, whose handler stores the
    text as the search query with its leading and trailing white space
    removed (and nothing else) and resets the page.  In general a
    keystroke that finds a timeout pending removes it and sets a new one due
    500 ms later. *)
Theorem C8_debounce_scenario (b : Browser) (x0 x1 x2 x3 : string) :
  listeners b = true -> timers b = [] -> expired b = [] -> clock b = 0 ->
  let typed := run (keystrokes x0 x1 x2 x3) b in
  (clock typed = 600 /\ expired typed = []
   /\ exists id, timers typed = [mkTimer id 1100 x3])
  /\ (forall dt, 0 <= dt < 500 ->
        expired (step (Elapse dt) typed) = []
        /\ state (step (Elapse dt) typed) = state b)
  /\ (forall dt, 500 <= dt ->
        let fired := step (Elapse dt) typed in
        expired fired = [(1100, x3)]
        /\ timers fired = []
        /\ searchQuery (state fired) = Js.trim x3
        /\ stripped_of x3 (searchQuery (state fired))
        /\ currentPage (state fired) = 1)
  /\ (forall (p : Browser) (t : Timer) (text : string),
        listeners p = true -> timers p = [t] -> timeoutId p = Some (timer_id t) ->
        timers (step (Input text) p)
        = [mkTimer (next_timer p) (clock p + 500) text]).
Proof.
  intros Hl Ht He Hc. cbv zeta. rewrite (keystrokes_typed b x0 x1 x2 x3 Hl Ht Hc).
  split; [|split; [|split]].
  - cbn. rewrite He. repeat split. eexists. reflexivity.
  - intros dt Hdt. cbn [step].
    erewrite elapse_not_due;
      [|reflexivity | lia | cbn [clock armed set_clock timer_due]; lia].
    cbn. rewrite He. split; reflexivity.
  - intros dt Hdt. cbn [step].
    erewrite elapse_due;
      [|reflexivity | lia | cbn [clock armed set_clock timer_due]; lia].
    unfold expire. cbn [timer_args timer_due].
    match goal with
    | |- context [handleSearch_func x3 ?x] =>
        destruct (handleSearch_func_timers x3 x) as [Hti Hex];
        destruct (handleSearch_func_state x3 x) as [Hq Hp]
    end.
    cbn [set_clock expired timers state].
    rewrite Hti, Hex, Hq, Hp. cbn -[Js.trim stripped_of].
    rewrite He. repeat split. apply trim_strips.
  - intros p t text Hlp Htp Hid.
    rewrite input_arms; [reflexivity | exact Hlp |].
    right. exists t. split; assumption.
Qed.

Lemma C8_debounce_scenario_witness :
  expired (step (Elapse 499) (run (keystrokes "a" "al" "ali" " alien ") started)) = []
  /\ expired (step (Elapse 500) (run (keystrokes "a" "al" "ali" " alien ") started))
     = [(1100, " alien ")]
  /\ searchQuery
       (state (step (Elapse 500) (run (keystrokes "a" "al" "ali" " alien ") started)))
     = "alien".
Proof.
  assert (Hl : listeners started = true) by (vm_compute; reflexivity).
  assert (Ht : timers started = []) by (vm_compute; reflexivity).
  assert (He : expired started = []) by (vm_compute; reflexivity).
  assert (Hc : clock started = 0) by (vm_compute; reflexivity).
  destruct (C8_debounce_scenario started "a" "al" "ali" " alien " Hl Ht He Hc)
    as (_ & Hquiet & Hfire & _).
  destruct (Hquiet 499 ltac:(lia)) as [Hq _].
  destruct (Hfire 500 ltac:(lia)) as (Hf1 & _ & Hf3 & _).
  split; [exact Hq|]. split; [exact Hf1 | exact Hf3].
Defined.

(** ** The page cursor and the page count *)

(** C2, as stated, fails: when the search's only page count arrives, the
    cursor stands at page 2 of 1. *)
Lemma C2_page_can_exceed_totalPages : ~ page_bound_claim.
Proof.
  intros H.
  specialize (H overshoot_pending 0%nat
                (mkRequest "/search/movie" [("page", PNum 2); ("query", PStr "x")]
                           "Bearer token")
                (pages_response 1) (mkJson (Some []) (Some 1) None) []).
  assert (Hp : currentPage (state (run [] (step (Settle 0 (pages_response 1))
                                              overshoot_pending))) = 2)
    by (vm_compute; reflexivity).
  assert (Ht : totalPages (state (run [] (step (Settle 0 (pages_response 1))
                                             overshoot_pending))) = 1)
    by (vm_compute; reflexivity).
  cbv zeta in H. rewrite Hp, Ht in H.
  apply H.
  - exists (Some "token"), blank_dom, overshoot_events. reflexivity.
  - vm_compute. reflexivity.
  - reflexivity.
  - reflexivity.
Qed.

Lemma page_inv_ext (b b' : Browser) :
  currentPage (state b') = currentPage (state b) ->
  totalPages (state b') = totalPages (state b) ->
  page_inv b -> page_inv b'.
Proof. unfold page_inv. now intros -> ->. Qed.

Lemma loadMovies_page_inv (b : Browser) : page_inv b -> page_inv (loadMovies b).
Proof.
  apply page_inv_ext; [apply loadMovies_currentPage | apply loadMovies_totalPages].
Qed.

Lemma trigger_page_inv (a : Trigger) (b : Browser) :
  page_inv b -> page_inv (trigger a b).
Proof.
  unfold page_inv. intros H. destruct a; cbn [trigger].
  1-3: unfold handleSearch_func, handleCategoryChange, handleGenreChange;
    rewrite loadMovies_currentPage, loadMovies_totalPages; cbn; lia.
  rewrite goToPage_totalPages. now apply goToPage_in_bounds.
Qed.

Lemma expire_all_page_inv (due : list Timer) (b : Browser) :
  page_inv b -> page_inv (fold_left (fun b t => expire t b) due b).
Proof.
  revert b. induction due as [|t due IH]; intros b H; [exact H|].
  cbn [fold_left]. apply IH. unfold expire.
  apply (trigger_page_inv (SearchIntent (timer_args t))).
  revert H. apply page_inv_ext; reflexivity.
Qed.

Lemma elapse_page_inv (dt : Z) (b : Browser) : page_inv b -> page_inv (elapse dt b).
Proof.
  intros H. unfold elapse. destruct (dt <? 0)%Z; [exact H|]. cbv zeta.
  eapply page_inv_ext; [reflexivity | reflexivity |].
  apply expire_all_page_inv.
  revert H. apply page_inv_ext; reflexivity.
Qed.

Lemma settle_page_inv (i : nat) (o : Outcome) (b : Browser) :
  reports_enough (Settle i o) b -> page_inv b -> page_inv (settle i o b).
Proof.
  unfold reports_enough, settle. intros He H.
  destruct (nth_error (inflight b) i) as [[r k]|]; [|exact H].
  destruct k.
  - unfold loadGenres_resume. apply loadMovies_page_inv.
    destruct (fetchFromTMDB_result o) as [m|data];
      [|destruct (data_genres data)];
      revert H; apply page_inv_ext; reflexivity.
  - unfold loadMovies_resume, page_inv in *.
    destruct (fetchFromTMDB_result o) as [m|data].
    + exact H.
    + destruct (results data) as [[|]|]; cbn; lia.
Qed.

Lemma step_page_inv (e : Event) (b : Browser) :
  reports_enough e b -> page_inv b -> page_inv (step e b).
Proof.
  intros He H. destruct e; cbn [step].
  - destruct (listeners b);
      [unfold handleSearch, debounce, clearTimeout; cbn [timeoutId set_searchInput upd_dom];
       destruct (timeoutId b)|];
      revert H; apply page_inv_ext; reflexivity.
  - destruct (listeners b); [|exact H].
    now apply (trigger_page_inv (CategoryChange value)).
  - destruct (listeners b); [|exact H].
    now apply (trigger_page_inv (GenreChange value)).
  - destruct (_ && _); [|exact H]. now apply (trigger_page_inv (Paginate "prev")).
  - destruct (_ && _); [|exact H]. now apply (trigger_page_inv (Paginate "next")).
  - now apply elapse_page_inv.
  - now apply settle_page_inv.
Qed.

Lemma init_page_inv (token : option string) (d : Dom) : page_inv (init (boot token d)).
Proof.
  unfold init, loadGenres, fetchFromTMDB.
  cbn [TMDB_TOKEN boot initializeEventListeners set_listeners].
  destruct (Js.truthy_opt token); cbn; unfold page_inv; cbn; lia.
Qed.

(** C2 (amended): in every run in which each successful movie fetch reports
    a page count (after the default and the clamp) no smaller than the
    cursor's page when it settles, the page stays inside [1, totalPages];
    user actions and timers never break the bound by themselves. *)
Theorem C2_page_within_totalPages
    (token : option string) (d : Dom) (events : list Event) :
  consistent_run events (init (boot token d)) ->
  page_inv (run events (init (boot token d))).
Proof.
  generalize (init_page_inv token d).
  generalize (init (boot token d)) as b.
  induction events as [|e events IH]; intros b Hinv Hrun; [exact Hinv|].
  destruct Hrun as [He Hrest]. cbn [run fold_left].
  apply (IH (step e b)); [now apply step_page_inv | exact Hrest].
Qed.

Lemma C2_page_within_totalPages_witness :
  consistent_run browse_events (init (boot (Some "token") blank_dom))
  /\ page_inv (run browse_events (init (boot (Some "token") blank_dom))).
Proof.
  assert (H : consistent_run browse_events (init (boot (Some "token") blank_dom))).
  { vm_compute. repeat split; discriminate. }
  split; [exact H|].
  exact (C2_page_within_totalPages (Some "token") blank_dom browse_events H).
Defined.

(** * Further properties *)

(** ** Starting a load *)

(** The three ways [loadMovies] can go: dropped by the guard, failed for
    want of a token, or suspended on the request derived from [state]. *)
Lemma loadMovies_unfold (b : Browser) :
  (isLoading (state b) = true /\ loadMovies b = b)
  \/ (isLoading (state b) = false /\ Js.truthy_opt (TMDB_TOKEN b) = false
      /\ loadMovies b
         = loadMovies_finally (loadMovies_catch token_missing_message (loading_ui b)))
  \/ (exists token, idle_with_token b token
      /\ loadMovies b = fetch (movies_request (state b) token) AwaitMovies (loading_ui b)).
Proof.
  destruct (isLoading (state b)) eqn:Hl.
  - left. split; [reflexivity | now apply loadMovies_guard].
  - right. unfold loadMovies. rewrite Hl. fold (loading_ui b).
    change (loadMovies_request (state (loading_ui b)))
      with (loadMovies_request (state b)).
    unfold movies_request.
    destruct (loadMovies_request (state b)) as [ep ps]. unfold fetchFromTMDB.
    change (TMDB_TOKEN (loading_ui b)) with (TMDB_TOKEN b).
    destruct (TMDB_TOKEN b) as [[|c t]|] eqn:Ht; cbn [Js.truthy_opt Js.truthy negb].
    + left. repeat split.
    + right. exists (String c t). repeat split; [exact Hl | exact Ht | discriminate].
    + left. repeat split.
Qed.

Lemma loadMovies_idle (b : Browser) (token : string) :
  idle_with_token b token ->
  loadMovies b = fetch (movies_request (state b) token) AwaitMovies (loading_ui b).
Proof.
  intros (Hl & Ht & Hne).
  destruct (loadMovies_unfold b) as [[Hl' _] | [(_ & Hf & _) | (t & (_ & Ht' & _) & E)]].
  - congruence.
  - rewrite Ht in Hf. destruct token; [congruence | cbn in Hf; discriminate Hf].
  - rewrite Ht in Ht'. injection Ht' as <-. exact E.
Qed.

(** X1: on an idle page with a token, [loadMovies] sets the loading flag,
    shows twelve skeleton cards, hides the status bar, disables both
    pagination buttons, and issues exactly one request, the one derived
    from [state], which stays outstanding. *)
Theorem loadMovies_start (b : Browser) (token : string) :
  idle_with_token b token ->
  let b' := loadMovies b in
  isLoading (state b') = true
  /\ moviesGrid (dom b') = GridSkeletons 12
  /\ statusBar_hidden (dom b') = true
  /\ prevBtn_disabled (dom b') = true
  /\ nextBtn_disabled (dom b') = true
  /\ network b' = (network b ++ [movies_request (state b) token])%list
  /\ inflight b' = (inflight b ++ [(movies_request (state b) token, AwaitMovies)])%list.
Proof.
  intros H. cbv zeta. rewrite (loadMovies_idle b token H). cbn.
  rewrite !orb_true_r. repeat split.
Qed.

Lemma loadMovies_start_witness :
  moviesGrid (dom (loadMovies idle_page)) = GridSkeletons 12
  /\ nextBtn_disabled (dom (loadMovies idle_page)) = true
  /\ network (loadMovies idle_page)
     = [mkRequest "/movie/popular" [("page", PNum 3)] "Bearer token"].
Proof.
  assert (H : idle_with_token idle_page "token")
    by (repeat split; discriminate).
  destruct (loadMovies_start idle_page "token" H) as (_ & Hg & _ & _ & Hn & Hnet & _).
  split; [exact Hg|]. split; [exact Hn | exact Hnet].
Defined.

(** X2: on an idle page without a token, [loadMovies] makes no request: it
    shows the missing-token error in the status bar, empties the grid,
    logs the failure and is idle again, with the page and the filters as
    they were; this happens on every attempt. *)
Theorem loadMovies_without_token (b : Browser) :
  isLoading (state b) = false -> Js.truthy_opt (TMDB_TOKEN b) = false ->
  let b' := loadMovies b in
  network b' = network b
  /\ inflight b' = inflight b
  /\ isLoading (state b') = false
  /\ statusBar (dom b')
     = Some (mkStatus token_missing_message "bg-red-900/50 border-red-700")
  /\ statusBar_hidden (dom b') = false
  /\ moviesGrid (dom b') = GridCleared
  /\ console b' = (console b ++ ["Failed to load movies:"])%list
  /\ controls_agree b'
  /\ loadMovies_request (state b') = loadMovies_request (state b)
  /\ statusBar (dom (loadMovies b')) = statusBar (dom b').
Proof.
  intros Hl Ht. cbv zeta.
  assert (E : forall x, isLoading (state x) = false ->
                        Js.truthy_opt (TMDB_TOKEN x) = false ->
                        loadMovies x = loadMovies_finally
                          (loadMovies_catch token_missing_message (loading_ui x))).
  { intros x Hx Hxt.
    destruct (loadMovies_unfold x) as [[Hl' _] | [(_ & _ & E) | (t & (_ & Ht' & Hne) & _)]].
    - congruence.
    - exact E.
    - rewrite Ht' in Hxt. destruct t; [congruence | cbn in Hxt; discriminate Hxt]. }
  rewrite (E b Hl Ht).
  repeat split.
  rewrite E; reflexivity || assumption.
Qed.

Lemma loadMovies_without_token_witness :
  network (loadMovies (boot None blank_dom)) = []
  /\ statusBar (dom (loadMovies (boot None blank_dom)))
     = Some (mkStatus token_missing_message "bg-red-900/50 border-red-700")
  /\ moviesGrid (dom (loadMovies (boot None blank_dom))) = GridCleared.
Proof.
  destruct (loadMovies_without_token (boot None blank_dom) eq_refl eq_refl)
    as (Hn & _ & _ & Hs & _ & Hg & _).
  split; [exact Hn|]. split; [exact Hs | exact Hg].
Defined.

(** ** When a movie fetch settles *)

Lemma settle_movies_unfold (i : nat) (o : Outcome) (r : Request) (b : Browser) :
  nth_error (inflight b) i = Some (r, AwaitMovies) ->
  settle i o b = loadMovies_resume o (set_inflight (remove_nth i (inflight b)) b).
Proof. intros H. unfold settle. now rewrite H. Qed.

(** X3: whatever the outcome of a movie fetch, when it settles the loading
    flag is cleared, the pagination controls are redrawn from [state], and
    neither the page number nor the filters nor the request log change. *)
Theorem settle_movies_ends_loading (i : nat) (o : Outcome) (r : Request) (b : Browser) :
  nth_error (inflight b) i = Some (r, AwaitMovies) ->
  let b' := settle i o b in
  isLoading (state b') = false
  /\ controls_agree b'
  /\ currentPage (state b') = currentPage (state b)
  /\ loadMovies_request (state b') = loadMovies_request (state b)
  /\ network b' = network b
  /\ inflight b' = remove_nth i (inflight b).
Proof.
  intros H. cbv zeta. rewrite (settle_movies_unfold i o r b H).
  unfold loadMovies_resume.
  destruct (fetchFromTMDB_result o) as [m|data]; [repeat split|].
  destruct (results data) as [[|]|]; repeat split.
Qed.

Lemma settle_movies_ends_loading_witness :
  isLoading (state (settle 0 (NetworkFailure "offline") page2_loading)) = false
  /\ pageInfo (dom (settle 0 (NetworkFailure "offline") page2_loading)) = "Page 2 of 10"
  /\ nextBtn_disabled (dom (settle 0 (NetworkFailure "offline") page2_loading)) = false.
Proof.
  destruct (settle_movies_ends_loading 0 (NetworkFailure "offline")
              (mkRequest "/trending/movie/week" [("page", PNum 2)] "Bearer token")
              page2_loading eq_refl) as (Hl & (Hi & _ & Hn) & _).
  split; [exact Hl|]. split; [exact Hi | exact Hn].
Defined.

(** X4: a response whose status is outside 200..299 ends the load with the
    banner "TMDB API Error: <status> <statusText>" in the error colours,
    whatever its body holds; the grid is emptied, the failure is logged and
    [totalPages] keeps its value. *)
Theorem settle_movies_http_error
    (i : nat) (status : Z) (statusText : string) (body : Body) (r : Request)
    (b : Browser) :
  nth_error (inflight b) i = Some (r, AwaitMovies) ->
  ~ 200 <= status <= 299 ->
  let b' := settle i (Response status statusText body) b in
  statusBar (dom b')
  = error_banner ("TMDB API Error: " ++ Js.int_to_string status ++ " " ++ statusText)
  /\ statusBar_hidden (dom b') = false
  /\ moviesGrid (dom b') = GridCleared
  /\ console b' = (console b ++ ["Failed to load movies:"])%list
  /\ totalPages (state b') = totalPages (state b)
  /\ isLoading (state b') = false.
Proof.
  intros H Hs. cbv zeta. rewrite (settle_movies_unfold _ _ r b H).
  unfold loadMovies_resume, fetchFromTMDB_result.
  assert (Hok : response_ok status = false).
  { unfold response_ok.
    destruct (Z.leb_spec 200 status), (Z.leb_spec status 299); try reflexivity; lia. }
  rewrite Hok. cbn. repeat split.
Qed.

Lemma settle_movies_http_error_witness :
  statusBar (dom (settle 0 (Response 401 "Unauthorized" (Malformed "")) page2_loading))
  = error_banner "TMDB API Error: 401 Unauthorized"
  /\ moviesGrid (dom (settle 0 (Response 401 "Unauthorized" (Malformed "")) page2_loading))
     = GridCleared
  /\ isLoading (state (settle 0 (Response 401 "Unauthorized" (Malformed "")) page2_loading))
     = false.
Proof.
  destruct (settle_movies_http_error 0 401 "Unauthorized" (Malformed "")
              (mkRequest "/trending/movie/week" [("page", PNum 2)] "Bearer token")
              page2_loading eq_refl ltac:(lia)) as (Hs & _ & Hg & _ & _ & Hl).
  split; [exact Hs|]. split; [exact Hg | exact Hl].
Defined.

(** X5: when the fetch itself fails, or a 2xx body cannot be parsed, the
    error's message is shown in the error colours, or the fixed fallback
    text when the message is empty; the grid is emptied, the failure is
    logged and [totalPages] keeps its value. *)
Theorem settle_movies_failure
    (i : nat) (o : Outcome) (message : string) (r : Request) (b : Browser) :
  nth_error (inflight b) i = Some (r, AwaitMovies) ->
  o = NetworkFailure message
  \/ (exists status statusText,
        200 <= status <= 299 /\ o = Response status statusText (Malformed message)) ->
  let b' := settle i o b in
  statusBar (dom b') = error_banner (shown_message message)
  /\ statusBar_hidden (dom b') = false
  /\ moviesGrid (dom b') = GridCleared
  /\ console b' = (console b ++ ["Failed to load movies:"])%list
  /\ totalPages (state b') = totalPages (state b)
  /\ isLoading (state b') = false.
Proof.
  intros H Ho. cbv zeta. rewrite (settle_movies_unfold _ _ r b H).
  unfold loadMovies_resume.
  assert (Hr : fetchFromTMDB_result o = inl message).
  { destruct Ho as [-> | (status & statusText & Hs & ->)]; [reflexivity|].
    unfold fetchFromTMDB_result, response_ok.
    destruct (Z.leb_spec 200 status), (Z.leb_spec status 299); try lia. reflexivity. }
  rewrite Hr. repeat split.
Qed.

Lemma settle_movies_failure_witness :
  statusBar (dom (settle 0 (NetworkFailure "") page2_loading))
  = error_banner "Failed to load movies. Please check your API token and try again."
  /\ statusBar (dom (settle 0 (Response 200 "OK" (Malformed "Unexpected token <"))
                            page2_loading))
     = error_banner "Unexpected token <".
Proof.
  split.
  - apply (settle_movies_failure 0 (NetworkFailure "") ""
             (mkRequest "/trending/movie/week" [("page", PNum 2)] "Bearer token")
             page2_loading eq_refl).
    left. reflexivity.
  - apply (settle_movies_failure 0 (Response 200 "OK" (Malformed "Unexpected token <"))
             "Unexpected token <"
             (mkRequest "/trending/movie/week" [("page", PNum 2)] "Bearer token")
             page2_loading eq_refl).
    right. exists 200, "OK". split; [lia | reflexivity].
Defined.

Lemma clamp_total_pages_le (tp : option Z) : clamp_total_pages tp <= 500.
Proof. unfold clamp_total_pages. apply Z.le_min_r. Qed.

(** X6: a successful response stores as [totalPages] the reported page
    count, with 1 for a missing or zero count and 500 for any count above
    500; the stored value never exceeds 500, and a negative count is stored
    as it is. *)
Theorem settle_movies_total_pages
    (i : nat) (status : Z) (statusText : string) (data : Json) (r : Request)
    (b : Browser) :
  nth_error (inflight b) i = Some (r, AwaitMovies) ->
  200 <= status <= 299 ->
  let t := totalPages (state (settle i (Response status statusText (Parsed data)) b)) in
  t <= 500
  /\ (total_pages data = None \/ total_pages data = Some 0 -> t = 1)
  /\ (forall n, total_pages data = Some n -> 1 <= n <= 500 -> t = n)
  /\ (forall n, total_pages data = Some n -> 500 <= n -> t = 500)
  /\ (forall n, total_pages data = Some n -> n < 0 -> t = n).
Proof.
  intros H Hs. cbv zeta. rewrite (settle_movies_unfold _ _ r b H).
  unfold loadMovies_resume, fetchFromTMDB_result, response_ok.
  destruct (Z.leb_spec 200 status), (Z.leb_spec status 299); try lia.
  cbn [andb negb].
  assert (E : forall x, totalPages (state (loadMovies_finally (updatePaginationUI
                (renderMovies (results data)
                   (upd_state (set_totalPages x)
                      (set_inflight (remove_nth i (inflight b)) b)))))) = x).
  { intros x. destruct (results data) as [[|]|]; reflexivity. }
  rewrite E. unfold clamp_total_pages. repeat apply conj.
  - apply Z.le_min_r.
  - intros [-> | ->]; reflexivity.
  - intros n -> Hn. destruct n; lia.
  - intros n -> Hn. destruct n; lia.
  - intros n -> Hn. destruct n; lia.
Qed.

Lemma settle_movies_total_pages_witness :
  totalPages (state (settle 0 (Response 200 "OK" (Parsed (mkJson None (Some 10000) None)))
                            page2_loading)) = 500
  /\ totalPages (state (settle 0 (Response 200 "OK" (Parsed (mkJson None None None)))
                               page2_loading)) = 1.
Proof.
  split.
  - destruct (settle_movies_total_pages 0 200 "OK" (mkJson None (Some 10000) None)
                (mkRequest "/trending/movie/week" [("page", PNum 2)] "Bearer token")
                page2_loading eq_refl ltac:(lia)) as (_ & _ & _ & H & _).
    apply (H 10000); [reflexivity | lia].
  - destruct (settle_movies_total_pages 0 200 "OK" (mkJson None None None)
                (mkRequest "/trending/movie/week" [("page", PNum 2)] "Bearer token")
                page2_loading eq_refl ltac:(lia)) as (_ & H & _).
    apply H. left. reflexivity.
Defined.

(** X7: a successful response never leaves the grid empty: without
    results it shows the "No movies found" message, otherwise one card per
    movie, in the order received; the status bar and the console are left
    as they were. *)
Theorem settle_movies_renders
    (i : nat) (status : Z) (statusText : string) (data : Json) (r : Request)
    (b : Browser) :
  nth_error (inflight b) i = Some (r, AwaitMovies) ->
  200 <= status <= 299 ->
  let b' := settle i (Response status statusText (Parsed data)) b in
  (results data = None \/ results data = Some [] -> moviesGrid (dom b') = GridNoMovies)
  /\ (forall ms, results data = Some ms -> ms <> [] ->
        exists cards,
          moviesGrid (dom b') = GridCards cards
          /\ length cards = length ms
          /\ forall k m, nth_error ms k = Some m ->
                         nth_error cards k = Some (renderCard m))
  /\ statusBar (dom b') = statusBar (dom b)
  /\ statusBar_hidden (dom b') = statusBar_hidden (dom b)
  /\ console b' = console b.
Proof.
  intros H Hs. cbv zeta. rewrite (settle_movies_unfold _ _ r b H).
  unfold loadMovies_resume, fetchFromTMDB_result, response_ok.
  destruct (Z.leb_spec 200 status), (Z.leb_spec status 299); try lia.
  cbn [andb negb]. repeat apply conj.
  - intros [-> | ->]; reflexivity.
  - intros ms -> Hne. destruct ms as [|m0 ms]; [congruence|].
    exists (map renderCard (m0 :: ms)). split; [reflexivity|].
    split; [apply length_map|].
    intros k m Hk. now apply map_nth_error.
  - destruct (results data) as [[|]|]; reflexivity.
  - destruct (results data) as [[|]|]; reflexivity.
  - destruct (results data) as [[|]|]; reflexivity.
Qed.

Lemma settle_movies_renders_witness :
  moviesGrid (dom (settle 0 (Response 200 "OK" (Parsed (mkJson (Some []) (Some 1) None)))
                          page2_loading)) = GridNoMovies
  /\ exists cards,
       moviesGrid (dom (settle 0 (Response 200 "OK"
                                    (Parsed (mkJson (Some two_movies) (Some 1) None)))
                               page2_loading)) = GridCards cards
       /\ length cards = 2%nat.
Proof.
  split.
  - destruct (settle_movies_renders 0 200 "OK" (mkJson (Some []) (Some 1) None)
                (mkRequest "/trending/movie/week" [("page", PNum 2)] "Bearer token")
                page2_loading eq_refl ltac:(lia)) as (H & _).
    apply H. right. reflexivity.
  - destruct (settle_movies_renders 0 200 "OK" (mkJson (Some two_movies) (Some 1) None)
                (mkRequest "/trending/movie/week" [("page", PNum 2)] "Bearer token")
                page2_loading eq_refl ltac:(lia)) as (_ & H & _).
    destruct (H two_movies eq_refl ltac:(discriminate)) as (cards & Hg & Hl & _).
    exists cards. split; [exact Hg | exact Hl].
Defined.

(** ** Requests made by the handlers *)

Lemma browse_endpoint (s : State) :
  searchQuery s = "" -> In (fst (loadMovies_request s)) browse_endpoints.
Proof.
  intros Hq. unfold loadMovies_request, browse_endpoints. rewrite Hq. cbn [Js.truthy].
  destruct (Js.truthy (selectedGenre s)); cbn [fst];
    destruct (String.eqb (currentCategory s) "trending"); cbn; auto;
    destruct (String.eqb (currentCategory s) "popular"); cbn; auto;
    destruct (String.eqb (currentCategory s) "top_rated"); cbn; auto.
Qed.

Lemma search_endpoint (s : State) :
  searchQuery s <> "" -> fst (loadMovies_request s) = "/search/movie".
Proof.
  intros Hq. unfold loadMovies_request. rewrite (truthy_nonempty _ Hq).
  destruct (Js.truthy (selectedGenre s)); reflexivity.
Qed.

(** X8: on an idle page with a token, a search intent issues one request
    for page 1.  The text is used with its leading and trailing white space
    removed: when what remains is non-empty the request goes to the search
    endpoint with it as [query]; when nothing remains it goes, without
    [query], to the endpoint of the current category (the trending one for
    a category that is none of the three), as if the search had been
    cleared.  The selected genre is sent along in both cases. *)
Theorem search_intent_request (text : string) (b : Browser) (token : string) :
  idle_with_token b token ->
  exists r,
    network (handleSearch_func text b) = (network b ++ [r])%list
    /\ authorization r = "Bearer " ++ token
    /\ param "page" (params r) = Some (PNum 1)
    /\ stripped_of text (Js.trim text)
    /\ (Js.trim text <> "" ->
          endpoint r = "/search/movie"
          /\ param "query" (params r) = Some (PStr (Js.trim text)))
    /\ (Js.trim text = "" ->
          param "query" (params r) = None
          /\ (currentCategory (state b) = "trending" ->
              endpoint r = "/trending/movie/week")
          /\ (currentCategory (state b) = "popular" -> endpoint r = "/movie/popular")
          /\ (currentCategory (state b) = "top_rated" -> endpoint r = "/movie/top_rated")
          /\ (~ In (currentCategory (state b)) ["trending"; "popular"; "top_rated"] ->
              endpoint r = "/trending/movie/week"))
    /\ param "with_genres" (params r)
       = (if Js.truthy (selectedGenre (state b))
          then Some (PStr (selectedGenre (state b))) else None).
Proof.
  intros (Hl & Ht & Hne).
  set (s := set_currentPage 1 (set_searchQuery (Js.trim text) (state b))).
  exists (movies_request s token).
  destruct (request_params s) as (Hpage & Hquery & Hgenre).
  unfold handleSearch_func.
  rewrite (loadMovies_idle _ token) by (repeat split; assumption).
  split; [reflexivity|]. split; [reflexivity|]. split; [exact Hpage|].
  split; [apply trim_strips|].
  split; [|split].
  - intros Hq. split; [now apply search_endpoint|].
    cbn [movies_request params]. rewrite Hquery. cbn. now rewrite (truthy_nonempty _ Hq).
  - intros Hq.
    destruct (category_endpoint s Hq) as (Htr & Hpo & Hto & Hother).
    split; [cbn [movies_request params]; rewrite Hquery; cbn; now rewrite Hq|].
    split; [exact Htr|]. split; [exact Hpo|]. split; [exact Hto|].
    intros Hnot. apply Hother; intros E; apply Hnot; cbn in *; auto.
  - exact Hgenre.
Qed.

Lemma search_intent_request_witness :
  exists r,
    network (handleSearch_func "   " searching_page) = [r]
    /\ endpoint r = "/movie/popular"
    /\ param "query" (params r) = None
    /\ param "with_genres" (params r) = Some (PStr "878").
Proof.
  assert (H : idle_with_token searching_page "token") by (repeat split; discriminate).
  destruct (search_intent_request "   " searching_page "token" H)
    as (r & Hn & _ & _ & _ & _ & Hblank & Hg).
  exists r. destruct (Hblank eq_refl) as (Hq & _ & Hpo & _).
  split; [exact Hn|]. split; [exact (Hpo eq_refl)|]. split; [exact Hq | exact Hg].
Defined.

(** X9: on an idle page with a token, a category change leaves search
    mode: it empties the search query and the search box, and issues one
    request for page 1, without [query], to the endpoint of the chosen
    category (the trending one for a value that is none of the three); the
    selected genre is kept. *)
Theorem category_change_request (category : string) (b : Browser) (token : string) :
  idle_with_token b token ->
  let b' := handleCategoryChange category b in
  searchQuery (state b') = ""
  /\ searchInput (dom b') = ""
  /\ selectedGenre (state b') = selectedGenre (state b)
  /\ exists r,
       network b' = (network b ++ [r])%list
       /\ param "page" (params r) = Some (PNum 1)
       /\ param "query" (params r) = None
       /\ (category = "trending" -> endpoint r = "/trending/movie/week")
       /\ (category = "popular" -> endpoint r = "/movie/popular")
       /\ (category = "top_rated" -> endpoint r = "/movie/top_rated")
       /\ (~ In category ["trending"; "popular"; "top_rated"] ->
           endpoint r = "/trending/movie/week").
Proof.
  intros (Hl & Ht & Hne). cbv zeta.
  set (s := set_currentPage 1 (set_searchQuery "" (set_currentCategory category (state b)))).
  destruct (request_params s) as (Hpage & Hquery & _).
  destruct (category_endpoint s eq_refl) as (Htr & Hpo & Hto & Hother).
  unfold handleCategoryChange.
  rewrite (loadMovies_idle _ token) by (repeat split; assumption).
  split; [reflexivity|]. split; [reflexivity|]. split; [reflexivity|].
  exists (movies_request s token).
  split; [reflexivity|]. split; [exact Hpage|]. split; [exact Hquery|].
  split; [exact Htr|]. split; [exact Hpo|]. split; [exact Hto|].
  intros Hnot. apply Hother; intros E; apply Hnot; cbn in *; auto.
Qed.

Lemma category_change_request_witness :
  searchQuery (state (handleCategoryChange "top_rated" searching_page)) = ""
  /\ exists r,
       network (handleCategoryChange "top_rated" searching_page) = [r]
       /\ endpoint r = "/movie/top_rated"
       /\ param "query" (params r) = None.
Proof.
  assert (H : idle_with_token searching_page "token") by (repeat split; discriminate).
  destruct (category_change_request "top_rated" searching_page "token" H)
    as (Hq & _ & _ & r & Hn & _ & Hnoq & _ & _ & Hto & _).
  split; [exact Hq|]. exists r.
  split; [exact Hn|]. split; [apply Hto; reflexivity | exact Hnoq].
Defined.

(** X10: on an idle page with a token, a genre change issues one request
    for page 1 to the endpoint the page was already using, with the same
    [query]; it carries [with_genres] for a non-empty genre and drops it
    for the empty "All Genres" value. *)
Theorem genre_change_request (genreId : string) (b : Browser) (token : string) :
  idle_with_token b token ->
  exists r,
    network (handleGenreChange genreId b) = (network b ++ [r])%list
    /\ endpoint r = fst (loadMovies_request (state b))
    /\ param "page" (params r) = Some (PNum 1)
    /\ param "query" (params r) = param "query" (snd (loadMovies_request (state b)))
    /\ (genreId <> "" -> param "with_genres" (params r) = Some (PStr genreId))
    /\ (genreId = "" -> param "with_genres" (params r) = None).
Proof.
  intros (Hl & Ht & Hne).
  set (s := set_currentPage 1 (set_selectedGenre genreId (state b))).
  destruct (request_params s) as (Hpage & Hquery & Hgenre).
  destruct (request_params (state b)) as (_ & Hquery0 & _).
  unfold handleGenreChange.
  rewrite (loadMovies_idle _ token) by (repeat split; assumption).
  exists (movies_request s token).
  split; [reflexivity|]. split.
  { cbn [movies_request endpoint]. unfold loadMovies_request. subst s. cbn.
    destruct (Js.truthy (searchQuery (state b))), (Js.truthy genreId),
      (Js.truthy (selectedGenre (state b))); reflexivity. }
  split; [exact Hpage|]. split; [cbn [movies_request params]; now rewrite Hquery, Hquery0|].
  split.
  - intros Hg. cbn [movies_request params]. rewrite Hgenre. cbn.
    now rewrite (truthy_nonempty _ Hg).
  - intros ->. cbn [movies_request params]. now rewrite Hgenre.
Qed.

Lemma genre_change_request_witness :
  exists r,
    network (handleGenreChange "" searching_page) = [r]
    /\ endpoint r = "/search/movie"
    /\ param "with_genres" (params r) = None.
Proof.
  assert (H : idle_with_token searching_page "token") by (repeat split; discriminate).
  destruct (genre_change_request "" searching_page "token" H)
    as (r & Hn & He & _ & _ & _ & Hg).
  exists r. split; [exact Hn|]. split; [exact He | exact (Hg eq_refl)].
Defined.

(** ** Pagination *)

(** X11: stepping forward and then back returns to the starting page
    whenever the forward step passes its bound check and the page is at
    least 1; stepping back and then forward returns to it whenever the
    backward step passes its check and the page does not exceed
    [totalPages].  Outside these conditions the second step is blocked: from
    a page above [totalPages] back-then-forward ends one page lower, and
    from a page below 1 forward-then-back ends one page higher.  A
    direction other than 'next' and 'prev' changes nothing. *)
Theorem goToPage_round_trip (b : Browser) :
  let p := currentPage (state b) in
  let t := totalPages (state b) in
  (p < t -> 1 <= p ->
     currentPage (state (goToPage "prev" (goToPage "next" b))) = p)
  /\ (p < t -> p < 1 ->
        currentPage (state (goToPage "prev" (goToPage "next" b))) = p + 1)
  /\ (1 < p -> p <= t ->
        currentPage (state (goToPage "next" (goToPage "prev" b))) = p)
  /\ (1 < p -> t < p ->
        currentPage (state (goToPage "next" (goToPage "prev" b))) = p - 1)
  /\ (forall d, d <> "next" -> d <> "prev" -> goToPage d b = b).
Proof.
  cbv zeta.
  assert (Hnext : currentPage (state b) < totalPages (state b) ->
                  currentPage (state (goToPage "next" b)) = currentPage (state b) + 1
                  /\ totalPages (state (goToPage "next" b)) = totalPages (state b)).
  { intros H. rewrite goToPage_totalPages, (goToPage_next b H), loadMovies_currentPage.
    split; reflexivity. }
  assert (Hprev : currentPage (state b) > 1 ->
                  currentPage (state (goToPage "prev" b)) = currentPage (state b) - 1
                  /\ totalPages (state (goToPage "prev" b)) = totalPages (state b)).
  { intros H. rewrite goToPage_totalPages, (goToPage_prev b H), loadMovies_currentPage.
    split; reflexivity. }
  split; [|split; [|split; [|split]]].
  - intros Ht H1. destruct (Hnext Ht) as [Hp Htp].
    rewrite goToPage_prev by lia. rewrite loadMovies_currentPage.
    cbn [move_page upd_state state currentPage set_currentPage]. lia.
  - intros Ht H1. destruct (Hnext Ht) as [Hp Htp].
    rewrite goToPage_prev_noop by lia. exact Hp.
  - intros H1 Ht. destruct (Hprev ltac:(lia)) as [Hp Htp].
    rewrite goToPage_next by lia. rewrite loadMovies_currentPage.
    cbn [move_page upd_state state currentPage set_currentPage]. lia.
  - intros H1 Ht. destruct (Hprev ltac:(lia)) as [Hp Htp].
    rewrite goToPage_next_noop by lia. exact Hp.
  - intros d Hn Hp. unfold goToPage.
    destruct (String.eqb_spec d "next"); [congruence|].
    destruct (String.eqb_spec d "prev"); [congruence|]. reflexivity.
Qed.

Lemma goToPage_round_trip_witness :
  currentPage (state (goToPage "prev" (goToPage "next" page7))) = 7
  /\ currentPage (state (goToPage "next" (goToPage "prev" page7))) = 7
  /\ currentPage (state (goToPage "next" (goToPage "prev" overshoot_settled))) = 2 - 1
  /\ goToPage "first" page7 = page7.
Proof.
  destruct (goToPage_round_trip page7) as (Hnp & _ & Hpn & _ & Hd).
  destruct (goToPage_round_trip overshoot_settled) as (_ & _ & _ & Hover & _).
  cbv zeta in Hnp, Hpn, Hover.
  assert (Hp : currentPage (state overshoot_settled) = 2) by (vm_compute; reflexivity).
  assert (Ht : totalPages (state overshoot_settled) = 1) by (vm_compute; reflexivity).
  rewrite Hp, Ht in Hover.
  split; [apply Hnp; [reflexivity | discriminate]|].
  split; [apply Hpn; [reflexivity | discriminate]|].
  split; [apply Hover; reflexivity|].
  apply Hd; discriminate.
Defined.

(** ** Filter changes during a load *)

(** X12: a filter change made while a movie fetch is outstanding is stored
    in [state], with the page reset to 1, but is never requested: when the
    outstanding fetch settles the page is idle, the request log is as it
    was before the change, and what is displayed belongs to the old
    filter. *)
Theorem filter_change_while_loading_is_not_fetched
    (a : Trigger) (i : nat) (o : Outcome) (r : Request) (b : Browser) :
  isLoading (state b) = true ->
  nth_error (inflight b) i = Some (r, AwaitMovies) ->
  let b' := settle i o (trigger a b) in
  network b' = network b
  /\ isLoading (state b') = false
  /\ inflight b' = remove_nth i (inflight b)
  /\ match a with
     | SearchIntent q =>
         searchQuery (state b') = Js.trim q /\ currentPage (state b') = 1
     | CategoryChange c =>
         currentCategory (state b') = c /\ searchQuery (state b') = ""
         /\ currentPage (state b') = 1
     | GenreChange g =>
         selectedGenre (state b') = g /\ currentPage (state b') = 1
     | Paginate _ => True
     end.
Proof.
  intros Hl Hi. cbv zeta.
  destruct (trigger_while_loading a b Hl) as (Hn & Hin & _).
  assert (Hi' : nth_error (inflight (trigger a b)) i = Some (r, AwaitMovies))
    by now rewrite Hin.
  destruct (settle_movies_ends_loading i o r _ Hi') as (Hl' & _ & Hp & _ & Hn' & Hin').
  cbv zeta in *. rewrite Hn', Hn, Hin', Hin.
  split; [reflexivity|]. split; [exact Hl'|]. split; [reflexivity|].
  rewrite (settle_movies_unfold i o r _ Hi'). unfold loadMovies_resume.
  destruct a; cbn [trigger];
    unfold handleSearch_func, handleCategoryChange, handleGenreChange;
    try rewrite loadMovies_guard by exact Hl;
    try exact I;
    destruct (fetchFromTMDB_result o) as [m|data];
    try destruct (results data) as [[|]|]; repeat split.
Qed.

Lemma filter_change_while_loading_is_not_fetched_witness :
  currentCategory (state (settle 0 (pages_response 10)
                                 (trigger (CategoryChange "popular") page2_loading)))
  = "popular"
  /\ network (settle 0 (pages_response 10)
                     (trigger (CategoryChange "popular") page2_loading))
     = [mkRequest "/trending/movie/week" [("page", PNum 2)] "Bearer token"].
Proof.
  destruct (filter_change_while_loading_is_not_fetched
              (CategoryChange "popular") 0 (pages_response 10)
              (mkRequest "/trending/movie/week" [("page", PNum 2)] "Bearer token")
              page2_loading eq_refl eq_refl) as (Hn & _ & _ & Hc & _).
  split; [exact Hc | exact Hn].
Defined.

(** ** What holds in every reachable state *)

Lemma reachable_invariant (P : Browser -> Prop) :
  (forall token d, P (init (boot token d))) ->
  (forall e b, P b -> P (step e b)) ->
  forall b, reachable b -> P b.
Proof.
  intros Hinit Hstep b (token & d & events & ->).
  generalize (Hinit token d). generalize (init (boot token d)) as b0.
  induction events as [|e events IH]; intros b0 H0; [exact H0|].
  cbn. apply IH, Hstep, H0.
Qed.

Lemma step_invariant (P : Browser -> Prop) :
  (forall text b, P b -> P (set_searchInput text b)) ->
  (forall text b, P b -> P (handleSearch text b)) ->
  (forall a b, P b -> P (trigger a b)) ->
  (forall dt b, P b -> P (elapse dt b)) ->
  (forall i o b, P b -> P (settle i o b)) ->
  forall e b, P b -> P (step e b).
Proof.
  intros Hin Hhs Htr Hel Hse e b H. destruct e; cbn [step].
  - destruct (listeners b); auto.
  - destruct (listeners b); [apply (Htr (CategoryChange value)) | ]; exact H.
  - destruct (listeners b); [apply (Htr (GenreChange value)) | ]; exact H.
  - destruct (_ && _); [apply (Htr (Paginate "prev")) | ]; exact H.
  - destruct (_ && _); [apply (Htr (Paginate "next")) | ]; exact H.
  - now apply Hel.
  - now apply Hse.
Qed.

Lemma expire_all_invariant (P : Browser -> Prop) :
  (forall b c n ts ex,
      P b ->
      P (mkBrowser (state b) (TMDB_TOKEN b) (dom b) (console b) (listeners b)
                   c n ts ex (timeoutId b) (network b) (inflight b))) ->
  (forall q b, P b -> P (handleSearch_func q b)) ->
  forall due b, P b -> P (fold_left (fun b t => expire t b) due b).
Proof.
  intros Hframe Hsearch due. induction due as [|t due IH]; intros b H; [exact H|].
  cbn [fold_left]. apply IH. unfold expire. apply Hsearch. apply (Hframe b), H.
Qed.

(** Time passing preserves whatever the search intent preserves and the
    timer bookkeeping cannot affect. *)
Lemma elapse_invariant (P : Browser -> Prop) :
  (forall b c n ts ex,
      P b ->
      P (mkBrowser (state b) (TMDB_TOKEN b) (dom b) (console b) (listeners b)
                   c n ts ex (timeoutId b) (network b) (inflight b))) ->
  (forall q b, P b -> P (handleSearch_func q b)) ->
  forall dt b, P b -> P (elapse dt b).
Proof.
  intros Hframe Hsearch dt b H. unfold elapse. destruct (dt <? 0)%Z; [exact H|].
  cbv zeta. unfold set_clock at 1.
  apply (Hframe (fold_left _ _ _)).
  apply (expire_all_invariant P Hframe Hsearch).
  apply (Hframe b), H.
Qed.

Lemma loadMovies_frame (b : Browser) :
  TMDB_TOKEN (loadMovies b) = TMDB_TOKEN b
  /\ listeners (loadMovies b) = listeners b
  /\ searchInput (dom (loadMovies b)) = searchInput (dom b)
  /\ loadMovies_request (state (loadMovies b)) = loadMovies_request (state b).
Proof. loadMovies_cases b; repeat split. Qed.

Lemma loadMovies_resume_frame (o : Outcome) (b : Browser) :
  TMDB_TOKEN (loadMovies_resume o b) = TMDB_TOKEN b
  /\ timers (loadMovies_resume o b) = timers b
  /\ timeoutId (loadMovies_resume o b) = timeoutId b
  /\ clock (loadMovies_resume o b) = clock b
  /\ network (loadMovies_resume o b) = network b
  /\ currentPage (state (loadMovies_resume o b)) = currentPage (state b)
  /\ isLoading (state (loadMovies_resume o b)) = false.
Proof.
  unfold loadMovies_resume.
  destruct (fetchFromTMDB_result o) as [m|data]; [repeat split|].
  destruct (results data) as [[|]|]; repeat split.
Qed.

Lemma resume_totalPages (o : Outcome) (b : Browser) :
  totalPages (state (loadMovies_resume o b)) = totalPages (state b)
  \/ totalPages (state (loadMovies_resume o b)) <= 500.
Proof.
  unfold loadMovies_resume.
  destruct (fetchFromTMDB_result o) as [m|data]; [left; reflexivity|].
  right. destruct (results data) as [[|]|]; apply clamp_total_pages_le.
Qed.

(** The state [loadGenres] leaves for the [loadMovies] call that follows. *)
Lemma loadGenres_resume_unfold (o : Outcome) (b : Browser) :
  exists b1,
    loadGenres_resume o b = loadMovies b1
    /\ TMDB_TOKEN b1 = TMDB_TOKEN b /\ network b1 = network b
    /\ inflight b1 = inflight b
    /\ currentPage (state b1) = currentPage (state b)
    /\ totalPages (state b1) = totalPages (state b)
    /\ isLoading (state b1) = isLoading (state b)
    /\ prevBtn_disabled (dom b1) = prevBtn_disabled (dom b)
    /\ nextBtn_disabled (dom b1) = nextBtn_disabled (dom b)
    /\ timers b1 = timers b /\ timeoutId b1 = timeoutId b /\ clock b1 = clock b.
Proof.
  unfold loadGenres_resume.
  destruct (fetchFromTMDB_result o) as [m|data]; [|destruct (data_genres data)];
    eexists; (split; [reflexivity|]); repeat split.
Qed.

Lemma movie_endpoint_in (s : State) : In (fst (loadMovies_request s)) movie_endpoints.
Proof.
  unfold movie_endpoints. destruct (string_dec (searchQuery s) "") as [E|E].
  - right. now apply browse_endpoint.
  - left. symmetry. now apply search_endpoint.
Qed.

Lemma traffic_inv_set (b b' : Browser) :
  TMDB_TOKEN b' = TMDB_TOKEN b -> network b' = network b ->
  cursor_bounds b' -> traffic_inv b -> traffic_inv b'.
Proof.
  unfold traffic_inv, log_shape. intros -> -> Hc (_ & Ha & Hs). auto.
Qed.

Lemma loadMovies_traffic_inv (b : Browser) : traffic_inv b -> traffic_inv (loadMovies b).
Proof.
  intros H.
  destruct (loadMovies_unfold b) as [[_ E] | [(_ & _ & E) | (t & (Hl & Ht & Hne) & E)]];
    rewrite E.
  - exact H.
  - generalize H. apply traffic_inv_set; try reflexivity.
    destruct H as (Hc & _). exact Hc.
  - destruct H as (Hc & Ha & Hs). unfold traffic_inv, log_shape.
    cbn [fetch loading_ui network TMDB_TOKEN updatePaginationUI hideStatus
         renderSkeletons set_moviesGrid upd_dom upd_state].
    split; [exact Hc|]. split.
    + apply Forall_app. split; [exact Ha|].
      constructor; [|constructor]. exists t. repeat split; assumption.
    + right. destruct Hs as [[Hf _] | (r & rest & Hn & Hg & Hr)].
      * rewrite Ht in Hf. destruct t; [congruence | discriminate Hf].
      * exists r, (rest ++ [movies_request (state b) t])%list.
        rewrite Hn. split; [reflexivity|]. split; [exact Hg|].
        apply Forall_app. split; [exact Hr|].
        constructor; [|constructor]. split; [apply movie_endpoint_in|].
        exists (currentPage (state b)). split; [|apply Hc].
        apply (request_params (state b)).
Qed.

Lemma trigger_traffic_inv (a : Trigger) (b : Browser) :
  traffic_inv b -> traffic_inv (trigger a b).
Proof.
  intros H. pose proof H as ((Hp & Ht) & _).
  destruct a; cbn [trigger];
    unfold handleSearch_func, handleCategoryChange, handleGenreChange, goToPage.
  1-3: apply loadMovies_traffic_inv; revert H;
    apply traffic_inv_set; try reflexivity; split; cbn; lia.
  destruct (String.eqb direction "next"); cbn [andb].
  - destruct (Z.ltb_spec (currentPage (state b)) (totalPages (state b))).
    + apply loadMovies_traffic_inv. revert H.
      apply traffic_inv_set; try reflexivity. split; cbn; lia.
    + destruct (String.eqb direction "prev"); cbn [andb]; [|exact H].
      rewrite Z.gtb_ltb. destruct (Z.ltb_spec 1 (currentPage (state b))); [|exact H].
      apply loadMovies_traffic_inv. revert H.
      apply traffic_inv_set; try reflexivity. split; cbn; lia.
  - destruct (String.eqb direction "prev"); cbn [andb]; [|exact H].
    rewrite Z.gtb_ltb. destruct (Z.ltb_spec 1 (currentPage (state b))); [|exact H].
    apply loadMovies_traffic_inv. revert H.
    apply traffic_inv_set; try reflexivity. split; cbn; lia.
Qed.

Lemma settle_traffic_inv (i : nat) (o : Outcome) (b : Browser) :
  traffic_inv b -> traffic_inv (settle i o b).
Proof.
  intros H. unfold settle.
  destruct (nth_error (inflight b) i) as [[r k]|]; [|exact H].
  destruct k.
  - destruct (loadGenres_resume_unfold o (set_inflight (remove_nth i (inflight b)) b))
      as (b1 & -> & Ht & Hn & _ & Hp & Htp & _).
    apply loadMovies_traffic_inv. generalize H.
    apply traffic_inv_set; try assumption.
    unfold cursor_bounds. rewrite Hp, Htp. apply H.
  - destruct (loadMovies_resume_frame o (set_inflight (remove_nth i (inflight b)) b))
      as (Ht & _ & _ & _ & Hn & Hp & _).
    generalize H. apply traffic_inv_set; try assumption.
    unfold cursor_bounds. rewrite Hp.
    destruct H as ((Hpb & Htb) & _). split; [exact Hpb|].
    destruct (resume_totalPages o (set_inflight (remove_nth i (inflight b)) b)) as [-> | Hle];
      [exact Htb | exact Hle].
Qed.

Lemma handleSearch_traffic_inv (text : string) (b : Browser) :
  traffic_inv b -> traffic_inv (handleSearch text b).
Proof.
  unfold handleSearch, debounce, clearTimeout.
  intros H. destruct (timeoutId b); generalize H; apply traffic_inv_set;
    try reflexivity; apply H.
Qed.

(** The two ways [init] can go on a fresh page. *)
Lemma init_unfold (token : option string) (d : Dom) :
  (Js.truthy_opt token = false
   /\ init (boot token d)
      = showStatus token_not_configured_message "error" (boot token d))
  \/ (exists t, token = Some t /\ t <> ""
       /\ init (boot token d)
          = fetch (mkRequest "/genre/movie/list" [] ("Bearer " ++ t)) AwaitGenres
                  (set_listeners true (boot token d))).
Proof.
  unfold init, loadGenres, fetchFromTMDB.
  cbn [TMDB_TOKEN boot initializeEventListeners set_listeners].
  destruct token as [[|c t]|]; cbn [Js.truthy_opt Js.truthy negb].
  - left. split; reflexivity.
  - right. exists (String c t). repeat split. discriminate.
  - left. split; reflexivity.
Qed.

Lemma reachable_traffic_inv (b : Browser) : reachable b -> traffic_inv b.
Proof.
  revert b. apply reachable_invariant.
  - intros token d.
    destruct (init_unfold token d) as [[Hf E] | (t & -> & Hne & E)]; rewrite E;
      unfold traffic_inv, cursor_bounds, log_shape, showStatus, upd_dom, fetch; cbn.
    + repeat split; try lia; [constructor | left; split; [exact Hf | reflexivity]].
    + repeat split; try lia.
      * constructor; [|constructor]. exists t. repeat split. exact Hne.
      * right. eexists. eexists. split; [reflexivity|].
        split; [split; reflexivity | constructor].
  - apply step_invariant.
    + intros text b H. generalize H. apply traffic_inv_set; try reflexivity. apply H.
    + apply handleSearch_traffic_inv.
    + apply trigger_traffic_inv.
    + apply elapse_invariant.
      * intros b c n ts ex H. generalize H. apply traffic_inv_set; try reflexivity.
        apply H.
      * intros q b. apply (trigger_traffic_inv (SearchIntent q)).
    + apply settle_traffic_inv.
Qed.

(** X13: in every state the page can reach, the page number is between 1
    and 500 and the page count is at most 500, whatever the remote service
    answers. *)
Theorem reachable_cursor_bounds (b : Browser) :
  reachable b ->
  1 <= currentPage (state b) <= 500 /\ totalPages (state b) <= 500.
Proof. intros H. apply (reachable_traffic_inv b H). Qed.

Lemma busy_page_reachable : reachable busy_page.
Proof. eexists. eexists. eexists. reflexivity. Qed.

Lemma reachable_cursor_bounds_witness :
  1 <= currentPage (state busy_page) <= 500 /\ totalPages (state busy_page) <= 500.
Proof. exact (reachable_cursor_bounds busy_page busy_page_reachable). Defined.

(** X14: the genre list is requested once, first, and never again: the
    request log of a reachable page is empty when no token is configured,
    and otherwise starts with the genre list request and continues with
    requests to the four movie endpoints only, each for a page in 1..500. *)
Theorem reachable_log_shape (b : Browser) :
  reachable b ->
  (Js.truthy_opt (TMDB_TOKEN b) = false /\ network b = [])
  \/ (exists r rest,
        network b = r :: rest
        /\ endpoint r = "/genre/movie/list" /\ params r = []
        /\ Forall (fun m =>
                     In (endpoint m) movie_endpoints
                     /\ exists p, param "page" (params m) = Some (PNum p)
                                  /\ 1 <= p <= 500) rest).
Proof.
  intros H. destruct (reachable_traffic_inv b H) as (_ & _ & [Hs | Hs]).
  - left. exact Hs.
  - right. destruct Hs as (r & rest & Hn & (He & Hp) & Hr).
    exists r, rest. repeat split; assumption.
Qed.

Lemma reachable_log_shape_witness :
  (Js.truthy_opt (TMDB_TOKEN busy_page) = false /\ network busy_page = [])
  \/ (exists r rest,
        network busy_page = r :: rest
        /\ endpoint r = "/genre/movie/list" /\ params r = []
        /\ Forall (fun m =>
                     In (endpoint m) movie_endpoints
                     /\ exists p, param "page" (params m) = Some (PNum p)
                                  /\ 1 <= p <= 500) rest).
Proof. exact (reachable_log_shape busy_page busy_page_reachable). Defined.

(** X15: no request leaves the page without the credential: every request
    in the log of a reachable page carries "Bearer " followed by the
    page's token, which is not empty. *)
Theorem reachable_requests_authorized (b : Browser) (r : Request) :
  reachable b -> In r (network b) ->
  exists t, TMDB_TOKEN b = Some t /\ t <> "" /\ authorization r = "Bearer " ++ t.
Proof.
  intros H Hin. destruct (reachable_traffic_inv b H) as (_ & Ha & _).
  rewrite Forall_forall in Ha. exact (Ha r Hin).
Qed.

Lemma reachable_requests_authorized_witness :
  exists t, TMDB_TOKEN busy_page = Some t /\ t <> ""
            /\ authorization (mkRequest "/genre/movie/list" [] "Bearer token")
               = "Bearer " ++ t.
Proof.
  apply (reachable_requests_authorized busy_page
           (mkRequest "/genre/movie/list" [] "Bearer token") busy_page_reachable).
  vm_compute. left. reflexivity.
Defined.

(** ** The pending timeout *)

Lemma trigger_timers (a : Trigger) (b : Browser) :
  timers (trigger a b) = timers b
  /\ timeoutId (trigger a b) = timeoutId b
  /\ clock (trigger a b) = clock b
  /\ expired (trigger a b) = expired b.
Proof.
  destruct a; cbn [trigger];
    unfold handleSearch_func, handleCategoryChange, handleGenreChange, goToPage;
    repeat match goal with
           | |- context [if ?c then _ else _] => destruct c
           end;
    try (repeat split; fail);
    match goal with
    | |- context [loadMovies ?x] =>
        destruct (loadMovies_timers x) as (Ht & He & Hc & Hi & _);
        rewrite Ht, He, Hc, Hi; repeat split
    end.
Qed.

Lemma timer_inv_ext (b b' : Browser) :
  timers b' = timers b -> timeoutId b' = timeoutId b -> clock b' = clock b ->
  timer_inv b -> timer_inv b'.
Proof. unfold timer_inv, one_pending. now intros -> -> ->. Qed.

Lemma handleSearch_timer_inv (text : string) (b : Browser) :
  timer_inv b -> timer_inv (handleSearch text b).
Proof.
  intros [Hone _]. unfold handleSearch, debounce, clearTimeout, setTimeout, timer_inv.
  destruct Hone as [Ht | (t & Ht & Hid)].
  - destruct (timeoutId b); cbn; rewrite Ht; cbn;
      (split; [right; eexists; split; reflexivity | constructor; [cbn; lia | constructor]]).
  - rewrite Hid. cbn. rewrite Ht. cbn. rewrite Nat.eqb_refl. cbn.
    split; [right; eexists; split; reflexivity | constructor; [cbn; lia | constructor]].
Qed.

Lemma elapse_timer_inv (dt : Z) (b : Browser) : timer_inv b -> timer_inv (elapse dt b).
Proof.
  intros [Hone Hdue].
  destruct (Z.ltb_spec dt 0) as [Hneg | Hpos].
  { unfold elapse. apply Z.ltb_lt in Hneg. rewrite Hneg. split; assumption. }
  destruct Hone as [Ht | (t & Ht & Hid)].
  - unfold elapse. apply Z.ltb_ge in Hpos. rewrite Hpos. cbv zeta. rewrite Ht. cbn.
    split; [left; reflexivity | constructor].
  - assert (Hd : clock b < timer_due t <= clock b + 500).
    { rewrite Ht in Hdue. now inversion Hdue. }
    destruct (Z.le_gt_cases (timer_due t) (clock b + dt)) as [Hle | Hgt].
    + rewrite (elapse_due dt t b Ht Hpos Hle). unfold expire.
      match goal with
      | |- timer_inv (set_clock _ (handleSearch_func ?q ?x)) =>
          destruct (handleSearch_func_timers q x) as [Hti _]
      end.
      split; [left | ]; cbn [set_clock timers]; rewrite Hti; [reflexivity | constructor].
    + rewrite (elapse_not_due dt t b Ht Hpos Hgt).
      split; [right; exists t; split; assumption|].
      cbn [set_clock timers clock]. rewrite Ht. constructor; [lia | constructor].
Qed.

Lemma settle_timer_inv (i : nat) (o : Outcome) (b : Browser) :
  timer_inv b -> timer_inv (settle i o b).
Proof.
  intros H. unfold settle.
  destruct (nth_error (inflight b) i) as [[r k]|]; [|exact H].
  destruct k.
  - destruct (loadGenres_resume_unfold o (set_inflight (remove_nth i (inflight b)) b))
      as (b1 & E & _ & _ & _ & _ & _ & _ & _ & _ & Ht & Hi & Hc).
    rewrite E. destruct (loadMovies_timers b1) as (Ht' & _ & Hc' & Hi' & _).
    cbn in Ht, Hi, Hc. revert H. apply timer_inv_ext; congruence.
  - destruct (loadMovies_resume_frame o (set_inflight (remove_nth i (inflight b)) b))
      as (_ & Ht & Hi & Hc & _).
    revert H. apply timer_inv_ext; assumption.
Qed.

Lemma step_timer_inv (e : Event) (b : Browser) : timer_inv b -> timer_inv (step e b).
Proof.
  revert e b. apply step_invariant.
  - intros text b. apply timer_inv_ext; reflexivity.
  - apply handleSearch_timer_inv.
  - intros a b. destruct (trigger_timers a b) as (Ht & Hi & Hc & _).
    now apply timer_inv_ext.
  - apply elapse_timer_inv.
  - apply settle_timer_inv.
Qed.

Lemma reachable_timer_inv (b : Browser) : reachable b -> timer_inv b.
Proof.
  revert b. apply reachable_invariant; [|apply step_timer_inv].
  intros token d.
  destruct (init_unfold token d) as [[_ E] | (t & _ & _ & E)]; rewrite E;
    (split; [left; reflexivity | constructor]).
Qed.

(** X16: the debounce timer is never left dangling: in every reachable state
    at most one timeout is pending, it is the one whose id the closure
    holds, and it is due later than now and at most 500 ms from now. *)
Theorem reachable_one_timeout (b : Browser) :
  reachable b ->
  timers b = []
  \/ exists t, timers b = [t] /\ timeoutId b = Some (timer_id t)
               /\ clock b < timer_due t <= clock b + 500.
Proof.
  intros H. destruct (reachable_timer_inv b H) as [[Ht | (t & Ht & Hi)] Hdue].
  - left. exact Ht.
  - right. exists t. rewrite Ht in Hdue. inversion Hdue. auto.
Qed.

Lemma reachable_one_timeout_witness :
  timers busy_page = []
  \/ exists t, timers busy_page = [t] /\ timeoutId busy_page = Some (timer_id t)
               /\ clock busy_page < timer_due t <= clock busy_page + 500.
Proof. exact (reachable_one_timeout busy_page busy_page_reachable). Defined.

(** ** Bursts of keystrokes *)

Lemma burst_armed (keys : list (string * Z)) (b : Browser) :
  listeners b = true -> one_pending b ->
  Forall (fun k => 0 <= snd k < 500) keys ->
  let b' := run (burst keys) b in
  listeners b' = true /\ one_pending b'
  /\ clock b' = clock b + burst_time keys
  /\ expired b' = expired b
  /\ state b' = state b.
Proof.
  revert b. induction keys as [|[text pause] keys IH]; intros b Hl Hp Hk; cbv zeta.
  - cbn. repeat split; try assumption. lia.
  - inversion Hk as [|k ks Hpause Hrest]; subst.
    cbn [burst run fold_left]. cbn [snd] in Hpause.
    rewrite (type_and_wait text pause b Hl Hp Hpause).
    destruct (IH (set_clock (clock b + pause) (armed text b)))
      as (Hl' & Hp' & Hc' & He' & Hs');
      [exact Hl | apply waiting_one_pending | exact Hrest |].
    unfold run in *. repeat split; try assumption.
    rewrite Hc'. unfold burst_time. cbn [clock set_clock armed fold_right snd]. lia.
Qed.

(** X17: however many keystrokes arrive, each less than 500 ms after the one
    before, none of them reaches the search handler; only the text of the
    last one does, exactly 500 ms after it was typed, and it is stored with
    its leading and trailing white space removed (and nothing else), with
    the page reset to 1. *)
Theorem burst_fires_once
    (keys : list (string * Z)) (last : string) (dt : Z) (b : Browser) :
  listeners b = true -> one_pending b ->
  Forall (fun k => 0 <= snd k < 500) keys ->
  500 <= dt ->
  let typed := run (burst keys ++ [Input last]) b in
  let fired := step (Elapse dt) typed in
  expired typed = expired b
  /\ state typed = state b
  /\ expired fired = (expired b ++ [(clock b + burst_time keys + 500, last)])%list
  /\ timers fired = []
  /\ searchQuery (state fired) = Js.trim last
  /\ stripped_of last (searchQuery (state fired))
  /\ currentPage (state fired) = 1.
Proof.
  intros Hl Hp Hk Hdt. cbv zeta. unfold run. rewrite fold_left_app.
  fold (run (burst keys) b).
  destruct (burst_armed keys b Hl Hp Hk) as (Hl' & Hp' & Hc' & He' & Hs').
  cbv zeta in *. set (b1 := run (burst keys) b) in *.
  cbn [fold_left]. rewrite (input_arms last b1 Hl' Hp').
  split; [exact He'|]. split; [exact Hs'|].
  cbn [step]. erewrite elapse_due;
    [|reflexivity | lia | cbn [clock armed timer_due]; lia].
  unfold expire. cbn [timer_args timer_due].
  match goal with
  | |- context [handleSearch_func last ?x] =>
      destruct (handleSearch_func_timers last x) as [Hti Hex];
      destruct (handleSearch_func_state last x) as [Hq Hpg]
  end.
  cbn [set_clock expired timers state]. rewrite Hti, Hex, Hq, Hpg.
  cbn [expired timers armed set_timers clock].
  rewrite He', Hc', Z.max_r by lia. repeat split. apply trim_strips.
Qed.

Lemma burst_fires_once_witness :
  expired (step (Elapse 500)
             (run (burst [("a", 100); ("al", 499); ("ali", 0); ("alie", 250)]
                     ++ [Input " alien"]) started))
  = [(1349, " alien")]
  /\ searchQuery (state (step (Elapse 500)
             (run (burst [("a", 100); ("al", 499); ("ali", 0); ("alie", 250)]
                     ++ [Input " alien"]) started)))
     = "alien".
Proof.
  assert (Hl : listeners started = true) by (vm_compute; reflexivity).
  assert (Hp : one_pending started) by (left; vm_compute; reflexivity).
  assert (Hk : Forall (fun k => 0 <= snd k < 500)
                      [("a", 100); ("al", 499); ("ali", 0); ("alie", 250)]).
  { repeat constructor; cbn; lia. }
  destruct (burst_fires_once [("a", 100); ("al", 499); ("ali", 0); ("alie", 250)]
              " alien" 500 started Hl Hp Hk ltac:(lia))
    as (_ & _ & He & _ & Hq & _).
  cbv zeta in He, Hq.
  assert (Hex : expired started = []) by (vm_compute; reflexivity).
  assert (Hc : clock started = 0) by (vm_compute; reflexivity).
  rewrite Hex, Hc in He.
  split; [exact He | exact Hq].
Defined.

(** ** Pagination buttons during a load *)

Lemma loading_locks_ext (b b' : Browser) :
  isLoading (state b') = isLoading (state b) ->
  prevBtn_disabled (dom b') = prevBtn_disabled (dom b) ->
  nextBtn_disabled (dom b') = nextBtn_disabled (dom b) ->
  loading_locks b -> loading_locks b'.
Proof. unfold loading_locks. now intros -> -> ->. Qed.

Lemma loadMovies_loading_locks (b : Browser) :
  loading_locks b -> loading_locks (loadMovies b).
Proof.
  intros H.
  destruct (loadMovies_unfold b) as [[_ E] | [(_ & _ & E) | (t & _ & E)]]; rewrite E.
  - exact H.
  - intros Hl. discriminate Hl.
  - intros _. cbn. rewrite !orb_true_r. split; reflexivity.
Qed.

Lemma trigger_loading_locks (a : Trigger) (b : Browser) :
  loading_locks b -> loading_locks (trigger a b).
Proof.
  intros H.
  destruct a; cbn [trigger];
    unfold handleSearch_func, handleCategoryChange, handleGenreChange, goToPage;
    repeat match goal with
           | |- context [if ?c then _ else _] => destruct c
           end;
    try exact H;
    apply loadMovies_loading_locks; revert H; apply loading_locks_ext; reflexivity.
Qed.

Lemma settle_loading_locks (i : nat) (o : Outcome) (b : Browser) :
  loading_locks b -> loading_locks (settle i o b).
Proof.
  intros H. unfold settle.
  destruct (nth_error (inflight b) i) as [[r k]|]; [|exact H].
  destruct k.
  - destruct (loadGenres_resume_unfold o (set_inflight (remove_nth i (inflight b)) b))
      as (b1 & E & _ & _ & _ & _ & _ & Hl & Hp & Hn & _).
    rewrite E. apply loadMovies_loading_locks.
    revert H. apply loading_locks_ext; assumption.
  - destruct (loadMovies_resume_frame o (set_inflight (remove_nth i (inflight b)) b))
      as (_ & _ & _ & _ & _ & _ & Hl).
    intros Hl'. rewrite Hl in Hl'. discriminate Hl'.
Qed.

Lemma reachable_loading_locks (b : Browser) : reachable b -> loading_locks b.
Proof.
  revert b. apply reachable_invariant.
  - intros token d.
    destruct (init_unfold token d) as [[_ E] | (t & _ & _ & E)]; rewrite E;
      intros Hl; discriminate Hl.
  - apply step_invariant.
    + intros text b. apply loading_locks_ext; reflexivity.
    + intros text b. unfold handleSearch, debounce, clearTimeout.
      destruct (timeoutId b); apply loading_locks_ext; reflexivity.
    + apply trigger_loading_locks.
    + apply elapse_invariant.
      * intros b c n ts ex. apply loading_locks_ext; reflexivity.
      * intros q b. apply (trigger_loading_locks (SearchIntent q)).
    + apply settle_loading_locks.
Qed.

(** X18: in every reachable state with a load in progress both pagination
    buttons are disabled, so a click on either changes nothing: through the
    buttons the page number cannot move while a fetch is outstanding. *)
Theorem reachable_loading_disables_pagination (b : Browser) :
  reachable b -> isLoading (state b) = true ->
  prevBtn_disabled (dom b) = true
  /\ nextBtn_disabled (dom b) = true
  /\ step ClickPrev b = b
  /\ step ClickNext b = b.
Proof.
  intros Hr Hl. destruct (reachable_loading_locks b Hr Hl) as [Hp Hn].
  cbn [step]. rewrite Hp, Hn, !andb_false_r. repeat split.
Qed.

Lemma first_load_reachable : reachable first_load.
Proof. eexists. eexists. eexists. reflexivity. Qed.

Lemma reachable_loading_disables_pagination_witness :
  nextBtn_disabled (dom first_load) = true /\ step ClickNext first_load = first_load.
Proof.
  destruct (reachable_loading_disables_pagination first_load first_load_reachable eq_refl)
    as (_ & Hn & _ & Hc).
  split; [exact Hn | exact Hc].
Defined.

(** ** A pending search and a category change *)

Lemma loadMovies_filters (b : Browser) :
  currentCategory (state (loadMovies b)) = currentCategory (state b)
  /\ selectedGenre (state (loadMovies b)) = selectedGenre (state b)
  /\ searchInput (dom (loadMovies b)) = searchInput (dom b).
Proof. loadMovies_cases b; repeat split. Qed.

Lemma handleSearch_func_frame (q : string) (b : Browser) :
  currentCategory (state (handleSearch_func q b)) = currentCategory (state b)
  /\ selectedGenre (state (handleSearch_func q b)) = selectedGenre (state b)
  /\ searchInput (dom (handleSearch_func q b)) = searchInput (dom b).
Proof.
  unfold handleSearch_func.
  match goal with
  | |- context [loadMovies ?x] => destruct (loadMovies_filters x) as (Hc & Hg & Hi)
  end.
  rewrite Hc, Hg, Hi. repeat split.
Qed.

Lemma handleCategoryChange_state (category : string) (b : Browser) :
  searchQuery (state (handleCategoryChange category b)) = ""
  /\ searchInput (dom (handleCategoryChange category b)) = ""
  /\ currentCategory (state (handleCategoryChange category b)) = category.
Proof.
  unfold handleCategoryChange.
  match goal with
  | |- context [loadMovies ?x] => destruct (loadMovies_filters x) as (Hc & _ & Hi)
  end.
  rewrite Hc, Hi, loadMovies_searchQuery. repeat split.
Qed.

Lemma expire_state (t : Timer) (b : Browser) :
  searchQuery (state (expire t b)) = Js.trim (timer_args t)
  /\ currentCategory (state (expire t b)) = currentCategory (state b)
  /\ searchInput (dom (expire t b)) = searchInput (dom b).
Proof.
  unfold expire.
  match goal with
  | |- context [handleSearch_func ?q ?x] =>
      destruct (handleSearch_func_state q x) as [Hs _];
      destruct (handleSearch_func_frame q x) as (Hcat & _ & Hsi)
  end.
  rewrite Hs, Hsi, Hcat. repeat split.
Qed.

Lemma set_clock_frame (c : Z) (b : Browser) :
  state (set_clock c b) = state b /\ dom (set_clock c b) = dom b.
Proof. split; reflexivity. Qed.

Lemma set_timers_frame (l : list Timer) (b : Browser) :
  state (set_timers l b) = state b /\ dom (set_timers l b) = dom b.
Proof. split; reflexivity. Qed.

(** X19: a category change does not cancel a pending debounce timeout: it
    empties the search box and the query, but when the timeout runs the
    text typed earlier becomes the search query again, with the box still
    empty and the chosen category kept. *)
Theorem category_change_keeps_pending_search
    (category : string) (t : Timer) (dt : Z) (b : Browser) :
  timers b = [t] -> 0 <= dt -> timer_due t <= clock b + dt ->
  let changed := handleCategoryChange category b in
  let later := elapse dt changed in
  timers changed = [t]
  /\ searchQuery (state changed) = ""
  /\ searchInput (dom changed) = ""
  /\ searchQuery (state later) = Js.trim (timer_args t)
  /\ searchInput (dom later) = ""
  /\ currentCategory (state later) = category.
Proof.
  intros Ht Hdt Hdue. cbv zeta.
  destruct (trigger_timers (CategoryChange category) b) as (Hti & _ & Hc & _).
  change (trigger (CategoryChange category) b)
    with (handleCategoryChange category b) in Hti, Hc.
  destruct (handleCategoryChange_state category b) as (Hq1 & Hq2 & Hq3).
  generalize dependent (handleCategoryChange category b). intros changed Hti Hc Hq1 Hq2 Hq3.
  rewrite Hti, Ht. split; [reflexivity|]. split; [exact Hq1|]. split; [exact Hq2|].
  rewrite (elapse_due dt t) by (rewrite ?Hti, ?Hc; assumption).
  destruct (set_clock_frame (clock changed + dt) (expire t (set_timers [] changed)))
    as [Es Ed].
  destruct (expire_state t (set_timers [] changed)) as (Hs & Hcat & Hsi).
  destruct (set_timers_frame [] changed) as [Ts Td].
  rewrite Es, Ed, Hs, Hcat, Hsi, Ts, Td.
  repeat split; assumption.
Qed.

Lemma category_change_keeps_pending_search_witness :
  let b := run [Input "alien"; Elapse 100] started in
  searchQuery (state (elapse 400 (handleCategoryChange "popular" b))) = Js.trim "alien"
  /\ searchInput (dom (elapse 400 (handleCategoryChange "popular" b))) = "".
Proof.
  cbv zeta.
  assert (Ht : timers (run [Input "alien"; Elapse 100] started) = [mkTimer 1 500 "alien"])
    by (vm_compute; reflexivity).
  assert (Hd : timer_due (mkTimer 1 500 "alien")
               <= clock (run [Input "alien"; Elapse 100] started) + 400)
    by (vm_compute; discriminate).
  destruct (category_change_keeps_pending_search "popular" (mkTimer 1 500 "alien") 400
              (run [Input "alien"; Elapse 100] started) Ht ltac:(lia) Hd)
    as (_ & _ & _ & Hq & Hi & _).
  split; [exact Hq | exact Hi].
Defined.

(** ** Startup *)

Lemma init_started (t : string) (d : Dom) :
  t <> "" ->
  init (boot (Some t) d)
  = fetch (genres_request t) AwaitGenres (set_listeners true (boot (Some t) d)).
Proof.
  intros Hne. destruct (init_unfold (Some t) d) as [[Hf _] | (t' & Ht & _ & E)].
  - destruct t; [congruence | discriminate Hf].
  - injection Ht as <-. exact E.
Qed.

Lemma settle_genres_unfold (i : nat) (o : Outcome) (r : Request) (b : Browser) :
  nth_error (inflight b) i = Some (r, AwaitGenres) ->
  settle i o b = loadGenres_resume o (set_inflight (remove_nth i (inflight b)) b).
Proof. intros H. unfold settle. now rewrite H. Qed.

(** X20: with a token configured, [init] attaches the listeners and issues
    one request, for the genre list, leaving [state] and the document as
    they were; when that fetch settles, whatever its outcome, the first
    movie request follows: page 1 of the trending list, with the grid
    showing skeleton cards meanwhile. *)
Theorem startup_sequence (t : string) (d : Dom) (o : Outcome) :
  t <> "" ->
  let b := init (boot (Some t) d) in
  let b' := settle 0 o b in
  listeners b = true
  /\ network b = [genres_request t]
  /\ state b = initial_state
  /\ dom b = d
  /\ network b'
     = [genres_request t;
        mkRequest "/trending/movie/week" [("page", PNum 1)] ("Bearer " ++ t)]
  /\ inflight b'
     = [(mkRequest "/trending/movie/week" [("page", PNum 1)] ("Bearer " ++ t),
         AwaitMovies)]
  /\ isLoading (state b') = true
  /\ moviesGrid (dom b') = GridSkeletons 12.
Proof.
  intros Hne. cbv zeta. rewrite (init_started t d Hne).
  split; [reflexivity|]. split; [reflexivity|]. split; [reflexivity|].
  split; [reflexivity|].
  rewrite (settle_genres_unfold 0 o (genres_request t)) by reflexivity.
  unfold loadGenres_resume.
  destruct (fetchFromTMDB_result o) as [m|data]; [|destruct (data_genres data)];
    rewrite (loadMovies_idle _ t) by (repeat split; assumption);
    repeat split.
Qed.

Lemma startup_sequence_witness :
  network (settle 0 (NetworkFailure "offline") (init (boot (Some "token") blank_dom)))
  = [genres_request "token";
     mkRequest "/trending/movie/week" [("page", PNum 1)] ("Bearer " ++ "token")]
  /\ listeners (init (boot (Some "token") blank_dom)) = true.
Proof.
  destruct (startup_sequence "token" blank_dom (NetworkFailure "offline")
              ltac:(discriminate)) as (Hl & _ & _ & _ & Hn & _).
  split; [exact Hn | exact Hl].
Defined.

(** X21: a failed genre fetch is not fatal and is not shown: the failure is
    only logged, [state.genres], the genre selector and the status bar's
    content stay as they were, and the movie load goes ahead with the
    request derived from [state]. *)
Theorem genres_failure_is_silent
    (i : nat) (o : Outcome) (message : string) (r : Request) (b : Browser)
    (token : string) :
  nth_error (inflight b) i = Some (r, AwaitGenres) ->
  idle_with_token b token ->
  fetchFromTMDB_result o = inl message ->
  let b' := settle i o b in
  console b' = (console b ++ ["Failed to load genres:"])%list
  /\ genres (state b') = genres (state b)
  /\ genreSelect (dom b') = genreSelect (dom b)
  /\ statusBar (dom b') = statusBar (dom b)
  /\ network b' = (network b ++ [movies_request (state b) token])%list
  /\ isLoading (state b') = true.
Proof.
  intros Hi Hidle Hr. cbv zeta. rewrite (settle_genres_unfold i o r b Hi).
  unfold loadGenres_resume. rewrite Hr.
  rewrite (loadMovies_idle _ token) by exact Hidle.
  cbn. repeat split.
Qed.

Lemma genres_failure_is_silent_witness :
  console (settle 0 (Response 500 "Server Error" (Malformed "")) started)
  = ["Failed to load genres:"]
  /\ statusBar (dom (settle 0 (Response 500 "Server Error" (Malformed "")) started)) = None
  /\ isLoading (state (settle 0 (Response 500 "Server Error" (Malformed "")) started)) = true.
Proof.
  assert (Hidle : idle_with_token started "token") by (repeat split; discriminate).
  destruct (genres_failure_is_silent 0 (Response 500 "Server Error" (Malformed ""))
              "TMDB API Error: 500 Server Error" (genres_request "token") started "token"
              eq_refl Hidle eq_refl) as (Hc & _ & _ & Hs & _ & Hl).
  split; [exact Hc|]. split; [exact Hs | exact Hl].
Defined.

(** X22: a successful genre response stores its genre list and fills the
    selector with "All Genres" followed by one option per genre, in order,
    valued by the genre id; a 2xx body without a [genres] field overwrites
    [state.genres] with the missing value, leaves the selector alone and is
    logged as a failure.  Either way the movie load goes ahead. *)
Theorem genres_success
    (i : nat) (o : Outcome) (data : Json) (r : Request) (b : Browser)
    (token : string) :
  nth_error (inflight b) i = Some (r, AwaitGenres) ->
  idle_with_token b token ->
  fetchFromTMDB_result o = inr data ->
  let b' := settle i o b in
  genres (state b') = data_genres data
  /\ (forall gs, data_genres data = Some gs ->
        genreSelect (dom b') = genre_options gs
        /\ length (genreSelect (dom b')) = S (length gs)
        /\ console b' = console b)
  /\ (data_genres data = None ->
        genreSelect (dom b') = genreSelect (dom b)
        /\ console b' = (console b ++ ["Failed to load genres:"])%list)
  /\ network b' = (network b ++ [movies_request (state b) token])%list
  /\ isLoading (state b') = true.
Proof.
  intros Hi Hidle Hr. cbv zeta. rewrite (settle_genres_unfold i o r b Hi).
  unfold loadGenres_resume. rewrite Hr.
  destruct (data_genres data) as [gs|] eqn:Hg;
    rewrite (loadMovies_idle _ token) by exact Hidle; cbn.
  - repeat split; try discriminate.
    + injection H as <-. reflexivity.
    + injection H as <-. cbn. now rewrite length_map.
  - repeat split; discriminate.
Qed.

Lemma genres_success_witness :
  genreSelect (dom genres_loaded)
  = [("", "All Genres"); ("28", "Action"); ("18", "Drama")]
  /\ genres (state genres_loaded) = Some [mkGenre 28 "Action"; mkGenre 18 "Drama"].
Proof.
  assert (Hidle : idle_with_token started "token") by (repeat split; discriminate).
  destruct (genres_success 0
              (Response 200 "OK"
                 (Parsed (mkJson None None (Some [mkGenre 28 "Action"; mkGenre 18 "Drama"]))))
              (mkJson None None (Some [mkGenre 28 "Action"; mkGenre 18 "Drama"]))
              (genres_request "token") started "token" eq_refl Hidle eq_refl)
    as (Hg & Hsel & _).
  destruct (Hsel _ eq_refl) as (Hs & _).
  split; [exact Hs | exact Hg].
Defined.

(** ** Rating text and card fallbacks *)





Lemma poster_url_not_fallback (p : string) :
  TMDB_IMAGE_BASE ++ "/w500" ++ p <> FALLBACK_POSTER.
Proof. cbv. discriminate. Qed.

(** X24: [getPosterUrl] returns the fallback data URL exactly when the
    poster path is missing or empty, and the w500 image URL of the path
    otherwise.  The overview text handed to the card template is
    "No overview available." when the overview is missing or empty and the
    overview itself otherwise, and the year slot gets 'TBA' exactly when the
    release date is missing or empty.  (These are the values interpolated
    into the template, not the attributes the browser parses out of it.) *)
Theorem card_fallbacks (m : Movie) :
  (forall path,
      getPosterUrl path = FALLBACK_POSTER <-> (path = None \/ path = Some ""))
  /\ (forall p, p <> "" -> getPosterUrl (Some p) = TMDB_IMAGE_BASE ++ "/w500" ++ p)
  /\ (overview m = None \/ overview m = Some "" ->
        card_overview (renderCard m) = "No overview available.")
  /\ (forall o, overview m = Some o -> o <> "" -> card_overview (renderCard m) = o)
  /\ (card_date (renderCard m) = None
      <-> (release_date m = None \/ release_date m = Some "")).
Proof.
  unfold renderCard, getPosterUrl. cbn [card_overview card_date].
  split; [|split; [|split; [|split]]].
  - intros path. destruct path as [[|c p]|]; cbn [Js.truthy_opt Js.truthy]; split; auto.
    + intros H. exfalso. exact (poster_url_not_fallback _ H).
    + intros [H | H]; discriminate.
  - intros p Hp. destruct p; [congruence | reflexivity].
  - intros [-> | ->]; reflexivity.
  - intros o -> Ho. destruct o; [congruence | reflexivity].
  - destruct (release_date m) as [[|c p]|]; cbn [Js.truthy_opt Js.truthy]; split; auto.
    intros [H | H]; discriminate.
Qed.


Lemma card_fallbacks_witness :
  getPosterUrl (Some "") = FALLBACK_POSTER
  /\ getPosterUrl (Some "/alien.jpg") = "https://image.tmdb.org/t/p/w500/alien.jpg"
  /\ card_overview (renderCard bare_movie) = "No overview available."
  /\ card_date (renderCard bare_movie) = None.
Proof.
  destruct (card_fallbacks bare_movie) as (Hp & Hurl & Ho & _ & Hd).
  split; [apply (proj2 (Hp (Some ""))); right; reflexivity|].
  split; [apply (Hurl "/alien.jpg"); discriminate|].
  split; [apply Ho; left; reflexivity | apply (proj2 Hd); left; reflexivity].
Defined.

(** ** A page without a token *)

Lemma step_unconfigured (e : Event) (b : Browser) :
  inert b ->
  state (step e b) = state b
  /\ statusBar (dom (step e b)) = statusBar (dom b)
  /\ statusBar_hidden (dom (step e b)) = statusBar_hidden (dom b)
  /\ moviesGrid (dom (step e b)) = moviesGrid (dom b).
Proof.
  intros (Hl & Ht & Hi & Hn). destruct e; cbn [step]; rewrite ?Hl; cbn [andb];
    try (repeat split; fail).
  - unfold elapse. destruct (dt <? 0)%Z; [repeat split|].
    cbv zeta. rewrite Ht. cbn. repeat split.
  - unfold settle. rewrite Hi. destruct i; repeat split.
Qed.

(** X25: a page started without a token stays dead: whatever the user does
    and however much time passes, [state] keeps its initial value, the
    configuration error stays in the status bar, and the grid is never
    touched. *)
Theorem unconfigured_page_is_dead (token : option string) (d : Dom) (events : list Event) :
  Js.truthy_opt token = false ->
  let b := run events (init (boot token d)) in
  state b = initial_state
  /\ statusBar (dom b) = error_banner token_not_configured_message
  /\ statusBar_hidden (dom b) = false
  /\ moviesGrid (dom b) = moviesGrid d.
Proof.
  intros Hf. cbv zeta.
  destruct (init_unfold token d) as [[_ E] | (t & -> & Hne & _)];
    [|destruct t; [congruence | discriminate Hf]].
  rewrite E.
  assert (H0 : inert (showStatus token_not_configured_message "error" (boot token d)))
    by (repeat split).
  assert (G : forall b,
             inert b ->
             state (run events b) = state b
             /\ statusBar (dom (run events b)) = statusBar (dom b)
             /\ statusBar_hidden (dom (run events b)) = statusBar_hidden (dom b)
             /\ moviesGrid (dom (run events b)) = moviesGrid (dom b)).
  { induction events as [|e events IH]; intros b Hb; [repeat split|].
    cbn [run fold_left]. fold (run events (step e b)).
    destruct (step_unconfigured e b Hb) as (Hs & Hsb & Hsh & Hg).
    destruct (IH (step e b) (step_inert e b Hb)) as (Hs' & Hsb' & Hsh' & Hg').
    repeat split; congruence. }
  destruct (G _ H0) as (Hs & Hsb & Hsh & Hg).
  rewrite Hs, Hsb, Hsh, Hg. repeat split.
Qed.

Lemma unconfigured_page_is_dead_witness :
  state (run [Input "alien"; Elapse 500; ChangeCategory "popular"; ClickNext]
             (init (boot (Some "") blank_dom))) = initial_state
  /\ statusBar_hidden
       (dom (run [Input "alien"; Elapse 500; ChangeCategory "popular"; ClickNext]
                 (init (boot (Some "") blank_dom)))) = false.
Proof.
  destruct (unconfigured_page_is_dead (Some "") blank_dom
              [Input "alien"; Elapse 500; ChangeCategory "popular"; ClickNext] eq_refl)
    as (Hs & _ & Hh & _).
  split; [exact Hs | exact Hh].
Defined.

(** ** Requests made by pagination *)

(** X26: on an idle page with a token, a step forward or back that passes
    its bound check issues one request to the endpoint the page was using,
    for the adjacent page and with the same [query] and [with_genres]. *)
Theorem pagination_request (b : Browser) (token : string) :
  idle_with_token b token ->
  (currentPage (state b) < totalPages (state b) ->
     exists r,
       network (goToPage "next" b) = (network b ++ [r])%list
       /\ endpoint r = fst (loadMovies_request (state b))
       /\ param "page" (params r) = Some (PNum (currentPage (state b) + 1))
       /\ param "query" (params r) = param "query" (snd (loadMovies_request (state b)))
       /\ param "with_genres" (params r)
          = param "with_genres" (snd (loadMovies_request (state b))))
  /\ (currentPage (state b) > 1 ->
        exists r,
          network (goToPage "prev" b) = (network b ++ [r])%list
          /\ endpoint r = fst (loadMovies_request (state b))
          /\ param "page" (params r) = Some (PNum (currentPage (state b) - 1))
          /\ param "query" (params r) = param "query" (snd (loadMovies_request (state b)))
          /\ param "with_genres" (params r)
             = param "with_genres" (snd (loadMovies_request (state b)))).
Proof.
  intros Hidle.
  assert (G : forall k,
             exists r,
               network (loadMovies (move_page k b)) = (network b ++ [r])%list
               /\ endpoint r = fst (loadMovies_request (state b))
               /\ param "page" (params r) = Some (PNum (currentPage (state b) + k))
               /\ param "query" (params r)
                  = param "query" (snd (loadMovies_request (state b)))
               /\ param "with_genres" (params r)
                  = param "with_genres" (snd (loadMovies_request (state b)))).
  { intros k. exists (movies_request (state (move_page k b)) token).
    rewrite (loadMovies_idle _ token) by exact Hidle.
    destruct (request_params (state (move_page k b))) as (Hp & Hq & Hg).
    destruct (request_params (state b)) as (_ & Hq0 & Hg0).
    split; [reflexivity|]. split.
    { cbn [movies_request endpoint]. unfold loadMovies_request. cbn.
      destruct (Js.truthy (searchQuery (state b))), (Js.truthy (selectedGenre (state b)));
        reflexivity. }
    split; [exact Hp|]. cbn [movies_request params].
    rewrite Hq, Hg, Hq0, Hg0. split; reflexivity. }
  split; intros H.
  - rewrite (goToPage_next b H). apply G.
  - rewrite (goToPage_prev b H). apply (G (-1)).
Qed.

Lemma pagination_request_witness :
  exists r,
    network (goToPage "next" searching_page) = [r]
    /\ endpoint r = "/search/movie"
    /\ param "page" (params r) = Some (PNum 5)
    /\ param "query" (params r) = Some (PStr "alien").
Proof.
  assert (H : idle_with_token searching_page "token") by (repeat split; discriminate).
  destruct (pagination_request searching_page "token" H) as [Hn _].
  destruct (Hn eq_refl) as (r & Hnet & He & Hp & Hq & _).
  exists r. split; [exact Hnet|]. split; [exact He|]. split; [exact Hp | exact Hq].
Defined.

(** ** Outstanding fetches *)

(** X27: when the genre fetch settles while a movie load is already in
    progress (the user acted before the genre list arrived), the
    [loadMovies] call that ends [init] is dropped by the guard: no request
    is made and the load in progress goes on. *)
Theorem genres_settle_while_loading
    (i : nat) (o : Outcome) (r : Request) (b : Browser) :
  isLoading (state b) = true ->
  nth_error (inflight b) i = Some (r, AwaitGenres) ->
  let b' := settle i o b in
  network b' = network b
  /\ inflight b' = remove_nth i (inflight b)
  /\ isLoading (state b') = true
  /\ loadMovies_request (state b') = loadMovies_request (state b)
  /\ moviesGrid (dom b') = moviesGrid (dom b).
Proof.
  intros Hl Hi. cbv zeta. rewrite (settle_genres_unfold i o r b Hi).
  unfold loadGenres_resume.
  destruct (fetchFromTMDB_result o) as [m|data]; [|destruct (data_genres data)];
    rewrite loadMovies_guard by exact Hl; repeat split; exact Hl.
Qed.

Lemma genres_settle_while_loading_witness :
  let b := step (ChangeCategory "popular") started in
  network (settle 0 (NetworkFailure "offline") b) = network b
  /\ isLoading (state (settle 0 (NetworkFailure "offline") b)) = true.
Proof.
  cbv zeta.
  destruct (genres_settle_while_loading 0 (NetworkFailure "offline")
              (genres_request "token") (step (ChangeCategory "popular") started)
              eq_refl eq_refl) as (Hn & _ & Hl & _).
  split; [exact Hn | exact Hl].
Defined.

Lemma genre_fetches_ext (b b' : Browser) :
  inflight b' = inflight b -> genre_fetches b' = genre_fetches b.
Proof. unfold genre_fetches. now intros ->. Qed.

Lemma loadMovies_genre_fetches (b : Browser) :
  genre_fetches (loadMovies b) = genre_fetches b.
Proof.
  destruct (loadMovies_unfold b) as [[_ E] | [(_ & _ & E) | (t & _ & E)]]; rewrite E.
  - reflexivity.
  - reflexivity.
  - unfold genre_fetches. cbn [fetch inflight]. rewrite filter_app, length_app.
    cbn. apply Nat.add_0_r.
Qed.

Lemma trigger_genre_fetches (a : Trigger) (b : Browser) :
  genre_fetches (trigger a b) = genre_fetches b.
Proof.
  destruct a; cbn [trigger];
    unfold handleSearch_func, handleCategoryChange, handleGenreChange, goToPage;
    repeat match goal with
           | |- context [if ?c then _ else _] => destruct c
           end;
    try reflexivity; rewrite loadMovies_genre_fetches; reflexivity.
Qed.

Lemma reachable_genre_fetches (b : Browser) : reachable b -> (genre_fetches b <= 1)%nat.
Proof.
  revert b. apply reachable_invariant.
  - intros token d.
    destruct (init_unfold token d) as [[_ E] | (t & _ & _ & E)]; rewrite E;
      cbn; lia.
  - apply step_invariant.
    + intros text b H. exact H.
    + intros text b H. unfold handleSearch, debounce, clearTimeout.
      destruct (timeoutId b); exact H.
    + intros a b H. now rewrite trigger_genre_fetches.
    + apply elapse_invariant.
      * intros b c n ts ex H. exact H.
      * intros q b H. pose proof (trigger_genre_fetches (SearchIntent q) b) as E.
        cbn [trigger] in E. now rewrite E.
    + intros i o b H. unfold settle.
      destruct (nth_error (inflight b) i) as [[r k]|] eqn:E; [|exact H].
      pose proof (filter_remove_nth awaits_genres _ _ _ E) as Hc.
      fold (genre_fetches b) in Hc.
      destruct k.
      * destruct (loadGenres_resume_unfold o (set_inflight (remove_nth i (inflight b)) b))
          as (b1 & E1 & _ & _ & Hin & _).
        rewrite E1, loadMovies_genre_fetches, (genre_fetches_ext _ _ Hin).
        unfold genre_fetches in *. cbn in *. lia.
      * unfold loadMovies_resume.
        destruct (fetchFromTMDB_result o) as [m|data];
          [|destruct (results data) as [[|]|]]; unfold genre_fetches in *; cbn in *; lia.
Qed.

(** X28: at most two requests are ever outstanding: in every reachable
    state at most one genre list fetch and at most one movie fetch have
    not settled yet, and no other kind of fetch exists. *)
Theorem reachable_outstanding_fetches (b : Browser) :
  reachable b ->
  (genre_fetches b <= 1)%nat
  /\ (movie_fetches b <= 1)%nat
  /\ length (inflight b) = (genre_fetches b + movie_fetches b)%nat
  /\ (length (inflight b) <= 2)%nat.
Proof.
  intros H. pose proof (reachable_genre_fetches b H) as Hg.
  pose proof (reachable_guard_inv b H) as Hm. unfold guard_inv in Hm.
  assert (Hlen : length (inflight b) = (genre_fetches b + movie_fetches b)%nat).
  { unfold genre_fetches, movie_fetches. clear.
    induction (inflight b) as [|[r k] l IH]; [reflexivity|].
    destruct k; cbn; unfold awaits_genres, awaits_movies in *; cbn; lia. }
  destruct (isLoading (state b)); lia.
Qed.

Lemma reachable_outstanding_fetches_witness :
  (length (inflight busy_page) <= 2)%nat.
Proof.
  destruct (reachable_outstanding_fetches busy_page busy_page_reachable) as (_ & _ & _ & H).
  exact H.
Defined.

(** ** A whole load *)

Lemma nth_error_last {A} (l : list A) (x : A) :
  nth_error (l ++ [x]) (length l) = Some x.
Proof. induction l as [|y l IH]; [reflexivity | exact IH]. Qed.

Lemma remove_nth_last {A} (l : list A) (x : A) :
  remove_nth (length l) (l ++ [x]) = l.
Proof. induction l as [|y l IH]; [reflexivity | cbn; now rewrite IH]. Qed.

(** X29: a load on an idle page with a token runs from idle through loading
    back to idle: one request goes out, and once it settles the set of
    outstanding fetches is what it was, loading has ended and the controls
    agree with [state].  After a successful response the status bar is
    hidden, so an earlier error banner is gone, and [totalPages] is the
    clamped page count; after a failure the error banner is visible and the
    grid is empty. *)
Theorem load_cycle (o : Outcome) (b : Browser) (token : string) :
  idle_with_token b token ->
  let b' := settle (length (inflight b)) o (loadMovies b) in
  network b' = (network b ++ [movies_request (state b) token])%list
  /\ inflight b' = inflight b
  /\ isLoading (state b') = false
  /\ controls_agree b'
  /\ (forall data, fetchFromTMDB_result o = inr data ->
        statusBar_hidden (dom b') = true
        /\ totalPages (state b') = clamp_total_pages (total_pages data)
        /\ moviesGrid (dom b') <> GridCleared
        /\ moviesGrid (dom b') <> GridSkeletons 12)
  /\ (forall message, fetchFromTMDB_result o = inl message ->
        statusBar_hidden (dom b') = false
        /\ statusBar (dom b') = error_banner (shown_message message)
        /\ totalPages (state b') = totalPages (state b)
        /\ moviesGrid (dom b') = GridCleared).
Proof.
  intros Hidle. cbv zeta.
  destruct (loadMovies_start b token Hidle) as (_ & _ & Hh & _ & _ & Hn & Hi).
  cbv zeta in *.
  assert (Hnth : nth_error (inflight (loadMovies b)) (length (inflight b))
                 = Some (movies_request (state b) token, AwaitMovies))
    by (rewrite Hi; apply nth_error_last).
  destruct (settle_movies_ends_loading _ o _ _ Hnth) as (Hl & Hc & _ & _ & Hn' & Hi').
  cbv zeta in *. rewrite Hn', Hn, Hi', Hi, remove_nth_last.
  split; [reflexivity|]. split; [reflexivity|]. split; [exact Hl|]. split; [exact Hc|].
  rewrite (settle_movies_unfold _ o _ _ Hnth), Hi, remove_nth_last.
  rewrite (loadMovies_idle b token Hidle).
  unfold loadMovies_resume. split.
  - intros data ->. destruct (results data) as [[|]|]; repeat split; discriminate.
  - intros message ->. repeat split.
Qed.

Lemma load_cycle_witness :
  statusBar_hidden
    (dom (settle (length (inflight idle_page)) (pages_response 10000) (loadMovies idle_page)))
  = true
  /\ totalPages
       (state (settle (length (inflight idle_page)) (pages_response 10000)
                      (loadMovies idle_page)))
     = clamp_total_pages (total_pages (mkJson (Some []) (Some 10000) None))
  /\ inflight (settle (length (inflight idle_page)) (pages_response 10000)
                      (loadMovies idle_page))
     = inflight idle_page.
Proof.
  assert (H : idle_with_token idle_page "token") by (repeat split; discriminate).
  destruct (load_cycle (pages_response 10000) idle_page "token" H)
    as (_ & Hi & _ & _ & Hok & _).
  destruct (Hok (mkJson (Some []) (Some 10000) None) eq_refl) as (Hh & Ht & _).
  split; [exact Hh|]. split; [exact Ht | exact Hi].
Defined.
